(** * XDR Brightness: the menu-bar app and its ddcctl variant

    A shallow embedding of the two Python programs of the repository,

    - [xdr-menubar-app.py]  (module [Menubar]): brightness presets, a slider
      and an enabled toggle, driving CoreDisplay through a [swift] child
      process; and
    - [XDR_Brightness.py]   (module [Ddcctl]): a single XDR toggle driving
      the [ddcctl] command line tool;

    both with the same LaunchAgent management (install, remove, query).

    The programs are a few lines of state change wrapped around effects:
    child processes, the file system, alerts.  The embedding keeps the
    effects: a callback is a computation in a monad [M app] that threads
    the Python object ([app]) and the outside [world] and either returns
    or raises.  As in Python, what a callback did to the object and to the
    world before it raised stays done.

    Python floats are modelled by exact rationals ([Q]).  The brightness
    levels are literals that are handed on unchanged or compared with each
    other; only the slider multiplies, and there the rational is the
    code's expression before rounding: what is stated about it here -
    bounds, order, that the level sent is the level recorded - is kept by
    any monotone rounding, its exact digits and the icon picked next to a
    threshold are not.

    Both apps are [rumps.App]s.  Of rumps the embedding keeps what the
    callbacks run into: assigning [self.icon] opens the file of that name
    and raises when there is none; the menu is looked up by title; the
    constructor makes the application support directory. *)

From Stdlib Require Import ZArith QArith Ascii String List Lia.
From stdpp Require Import gmap strings list fin_maps.

Local Open Scope string_scope.
Local Open Scope list_scope.

(** ** The outside world *)

(** A path is its list of components, root first
    ([Path.home() / "Library/LaunchAgents/..."]). *)
Definition path := list string.

(** [p.parent] *)
Definition parent (p : path) : path := removelast p.

Inductive node :=
| File (content : string)
| Dir.

Inductive command :=
| Swift (level : Q)
    (* ['swift', '-'] fed the program that calls
       CoreDisplay_Display_SetUserBrightness(displayID, level) *)
| Ddcctl (brightness : string)
    (* ["sudo", DDCCTL_PATH, "-d", "1", "-b", brightness] *)
| Launchctl (verb : string) (plist : path)
    (* ['launchctl', verb, str(plist)] *).

(** The Python exceptions the two programs can meet. *)
Inductive exn :=
| FileNotFoundError
| FileExistsError
| NotADirectoryError
| IsADirectoryError
| PermissionError
| KeyError (key : string)
| CalledProcessError (cmd : command) (returncode : Z).

(** Why a child process could not be started. *)
Inductive spawn_error :=
| ENOENT     (* binary missing *)
| EACCES.    (* permission denied *)

(** The [OSError] that [subprocess] raises for it. *)
Definition oserror (e : spawn_error) : exn :=
  match e with
  | ENOENT => FileNotFoundError
  | EACCES => PermissionError
  end.

(** What the operating system answers when a child process is started:
    it runs and exits with a code, or it cannot be started at all. *)
Inductive proc_outcome :=
| Exited (code : Z)
| SpawnFailed (e : spawn_error).

(** Everything observable from outside the Python object, in order. *)
Inductive event :=
| EvSpawn (c : command)
| EvMkdir (p : path)
| EvWrite (p : path) (content : string)
| EvUnlink (p : path)
| EvAlert (text : string) (exc : exn)
    (* rumps.alert(f"{text}\n{exc}") *)
| EvNotify (subtitle message : string)
| EvPrint (text : string).

Record world := mkWorld {
  home : path;                      (* Path.home() *)
  sys_executable : string;          (* sys.executable *)
  script_file : string;             (* Path(__file__).as_posix() *)
  script_abspath : string;          (* os.path.abspath(__file__) *)
  image_opens : string -> bool;
    (* whether rumps can open an image file of this name, from the
       working directory or beside the main script *)
  fs : gmap path node;              (* the disk *)
  procs : nat -> proc_outcome;      (* the answer to the k-th child process *)
  nprocs : nat;                     (* child processes started so far *)
  trace : list event                (* what happened, oldest first *)
}.

Definition with_fs (f : gmap path node) (w : world) : world :=
  mkWorld (home w) (sys_executable w) (script_file w) (script_abspath w)
          (image_opens w) f (procs w) (nprocs w) (trace w).

Definition log (e : event) (w : world) : world :=
  mkWorld (home w) (sys_executable w) (script_file w) (script_abspath w)
          (image_opens w) (fs w) (procs w) (nprocs w) (trace w ++ [e]).

Definition tick (w : world) : world :=
  mkWorld (home w) (sys_executable w) (script_file w) (script_abspath w)
          (image_opens w) (fs w) (procs w) (S (nprocs w)) (trace w).

(** Something outside the program (the user, an uninstaller) deletes a
    file behind its back: no event of the program's. *)
Definition external_delete (p : path) (w : world) : world :=
  with_fs (delete p (fs w)) w.

(** ** Computations *)

Inductive result (A : Type) :=
| Ok (a : A)
| Raise (e : exn).
Arguments Ok {A} a.
Arguments Raise {A} e.

Definition M (St A : Type) : Type := St -> world -> result A * St * world.

Section Monad.
Context {St : Type}.

Definition ret {A} (a : A) : M St A := fun s w => (Ok a, s, w).

Definition bind {A B} (m : M St A) (k : A -> M St B) : M St B :=
  fun s w =>
    match m s w with
    | (Ok a, s', w') => k a s' w'
    | (Raise e, s', w') => (Raise e, s', w')
    end.

Definition raise {A} (e : exn) : M St A := fun s w => (Raise e, s, w).

Definition get : M St St := fun s w => (Ok s, s, w).
Definition put (s : St) : M St unit := fun _ w => (Ok tt, s, w).
Definition modify (f : St -> St) : M St unit := fun s w => (Ok tt, f s, w).

Definition ask : M St world := fun s w => (Ok w, s, w).
Definition emit (e : event) : M St unit := fun s w => (Ok tt, s, log e w).

(** [try: body except CalledProcessError as exc: handler(exc)] *)
Definition try_except_CalledProcessError
    (body : M St unit) (handler : command -> Z -> M St unit) : M St unit :=
  fun s w =>
    match body s w with
    | (Raise (CalledProcessError c rc), s', w') => handler c rc s' w'
    | r => r
    end.

(** Starting a child process and waiting for it: the attempt is logged,
    the world answers. *)
Definition spawn (c : command) : M St Z :=
  fun s w =>
    let w' := tick (log (EvSpawn c) w) in
    match procs w (nprocs w) with
    | Exited rc => (Ok rc, s, w')
    | SpawnFailed e => (Raise (oserror e), s, w')
    end.
End Monad.

#[global] Instance M_bind {St} : MBind (M St) := fun A B k m => bind m k.
#[global] Instance M_ret {St} : MRet (M St) := fun A a => ret a.

Section Library.
Context {St : Type}.

(** [subprocess.run(cmd, check=check)] *)
Definition subprocess_run (c : command) (check : bool) : M St unit :=
  rc ← spawn c;
  if check && negb (rc =? 0)%Z then raise (CalledProcessError c rc)
  else ret tt.

(** [process = subprocess.Popen(cmd, stdin=PIPE, text=True)] followed by
    [process.communicate(input=...)]: the exit status is not looked at. *)
Definition popen_communicate (c : command) : M St unit :=
  spawn c;; ret tt.

(** [p.exists()]: never raises for a missing file. *)
Definition path_exists (p : path) : M St bool :=
  w ← ask; ret (bool_decide (is_Some (fs w !! p))).

(** [p.mkdir(exist_ok=True)] (not [parents=True]). *)
Definition mkdir_exist_ok (p : path) : M St unit :=
  fun s w =>
    match fs w !! p with
    | Some Dir => (Ok tt, s, w)
    | Some (File _) => (Raise FileExistsError, s, w)
    | None =>
        match fs w !! parent p with
        | Some Dir => (Ok tt, s, log (EvMkdir p) (with_fs (<[p := Dir]> (fs w)) w))
        | Some (File _) => (Raise NotADirectoryError, s, w)
        | None => (Raise FileNotFoundError, s, w)
        end
    end.

(** [p.write_text(content)]: creates or truncates the file. *)
Definition write_text (p : path) (content : string) : M St unit :=
  fun s w =>
    match fs w !! p with
    | Some Dir => (Raise IsADirectoryError, s, w)
    | _ =>
        match fs w !! parent p with
        | Some Dir =>
            (Ok tt, s, log (EvWrite p content)
                           (with_fs (<[p := File content]> (fs w)) w))
        | Some (File _) => (Raise NotADirectoryError, s, w)
        | None => (Raise FileNotFoundError, s, w)
        end
    end.

(** [p.unlink()] *)
Definition unlink (p : path) : M St unit :=
  fun s w =>
    match fs w !! p with
    | Some (File _) => (Ok tt, s, log (EvUnlink p) (with_fs (delete p (fs w)) w))
    | Some Dir => (Raise PermissionError, s, w)
    | None => (Raise FileNotFoundError, s, w)
    end.
(** What [rumps.App.__init__] does to the disk, as its last step: rumps's
    [application_support(name)] takes [~/Library/Application Support/name]
    and calls [os.mkdir] on it unless [os.path.isdir] holds - the cases of
    [mkdir(exist_ok=True)]. *)
Definition application_support (name : string) : M St unit :=
  w ← ask;
  mkdir_exist_ok (home w ++ ["Library"; "Application Support"; name]).

(** [rumps.App.__init__(name, quit_button=None)]: no icon is given, so
    none is opened. *)
Definition rumps_App_init (name : string) : M St unit :=
  application_support name.

(** [print(text)] *)
Definition print (text : string) : M St unit := emit (EvPrint text).
End Library.

(** ** The LaunchAgent record, shared by the two programs *)

Definition nl : string := String "010"%char EmptyString.
Definition dq : string := String "034"%char EmptyString.

(** Lines joined by newlines, none after the last. *)
Fixpoint unlines (ls : list string) : string :=
  match ls with
  | [] => EmptyString
  | [l] => l
  | l :: ls' => l +:+ nl +:+ unlines ls'
  end.

(** The lines every plist starts with. *)
Definition plist_prolog : list string :=
  [ "<?xml version=" +:+ dq +:+ "1.0" +:+ dq +:+ " encoding=" +:+ dq +:+ "UTF-8" +:+ dq +:+ "?>";
    "<!DOCTYPE plist PUBLIC " +:+ dq +:+ "-//Apple//DTD PLIST 1.0//EN" +:+ dq +:+ " "
      +:+ dq +:+ "http://www.apple.com/DTDs/PropertyList-1.0.dtd" +:+ dq +:+ ">";
    "<plist version=" +:+ dq +:+ "1.0" +:+ dq +:+ ">" ].

(** [Path.home() / "Library/LaunchAgents/com.xdr.brightness.plist"] *)
Definition plist_path_of (w : world) : path :=
  home w ++ ["Library"; "LaunchAgents"; "com.xdr.brightness.plist"].

(** The directory it lives in: [plist_path.parent]. *)
Definition launch_agents_dir (w : world) : path :=
  home w ++ ["Library"; "LaunchAgents"].

(** * xdr-menubar-app.py *)

Module Menubar.

Record app := mkApp {
  current_brightness : Q;
  enabled : bool;
  icon : option string;          (* [self.icon]: [None] until one is set *)
  enabled_title : string;        (* title of the Enabled item *)
  startup_title : string         (* title of the Launch at Startup item *)
}.

Definition set_current_brightness (l : Q) (s : app) : app :=
  mkApp l (enabled s) (icon s) (enabled_title s) (startup_title s).
Definition set_enabled (b : bool) (s : app) : app :=
  mkApp (current_brightness s) b (icon s) (enabled_title s) (startup_title s).
Definition set_icon (i : option string) (s : app) : app :=
  mkApp (current_brightness s) (enabled s) i (enabled_title s) (startup_title s).
Definition set_enabled_title (t : string) (s : app) : app :=
  mkApp (current_brightness s) (enabled s) (icon s) t (startup_title s).
Definition set_startup_title (t : string) (s : app) : app :=
  mkApp (current_brightness s) (enabled s) (icon s) (enabled_title s) t.

(** [self.menu["🔆 Brightness:"].set_value(v)].  The menu is keyed by the
    titles of the items [setup_menu] lists (the slider and the separators
    have none) and no item has this title: the lookup raises [KeyError]
    before any [set_value] is called. *)
Definition menu_brightness_set_value (v : Q) : M app unit :=
  raise (KeyError "🔆 Brightness:").

(** [self.icon = icon].  The setter of [rumps.App] opens the file named
    [icon] before it keeps the name: where there is no such file it raises
    [FileNotFoundError] and the icon stays what it was.  The names given
    here are emoji, not paths. *)
Definition update_icon (i : string) : M app unit :=
  w ← ask;
  if image_opens w i then modify (set_icon (Some i))
  else raise FileNotFoundError.

Definition show_notification (title message : string) : M app unit :=
  emit (EvNotify title message).

Definition set_brightness (level : Q) : M app unit :=
  s ← get;
  if negb (enabled s) then ret tt
  else
    popen_communicate (Swift level);;
    modify (set_current_brightness level).

Definition set_outdoor : M app unit :=
  set_brightness 3.2;;
  show_notification "Outdoor Mode" "1600 nits - Maximum brightness";;
  update_icon "☀️";;
  menu_brightness_set_value 100.

Definition set_bright : M app unit :=
  set_brightness 2.0;;
  show_notification "Bright Mode" "1000 nits";;
  update_icon "💡";;
  menu_brightness_set_value 62.

Definition set_normal : M app unit :=
  set_brightness 1.0;;
  show_notification "Normal Mode" "500 nits";;
  update_icon "🖥️";;
  menu_brightness_set_value 31.

Definition set_dim : M app unit :=
  set_brightness 0.5;;
  show_notification "Dim Mode" "250 nits";;
  update_icon "🌙";;
  menu_brightness_set_value 15.

(** [sender.value] is passed as [value].  [brightness] is the code's
    expression over the rationals (see the note on floats above). *)
Definition slider_changed (value : Q) : M app unit :=
  s ← get;
  if negb (enabled s) then ret tt
  else
    let brightness := ((value / 100.0) * 3.2)%Q in
    set_brightness brightness;;
    if Qle_bool 2.5 brightness then update_icon "☀️"
    else if Qle_bool 1.5 brightness then update_icon "💡"
    else if Qle_bool 0.8 brightness then update_icon "🖥️"
    else update_icon "🌙".

(** [sender] is the Enabled item. *)
Definition toggle_enabled : M app unit :=
  modify (fun s => set_enabled (negb (enabled s)) s);;
  s ← get;
  modify (set_enabled_title (if enabled s then "✅ Enabled" else "❌ Disabled"));;
  if negb (enabled s) then
    set_brightness 1.0;;
    update_icon "⭕"
  else
    update_icon "☀️".

Definition is_startup_enabled : M app bool :=
  w ← ask;
  path_exists (plist_path_of w).

Definition plist_content (w : world) : string :=
  unlines (plist_prolog ++
    [ "<dict>";
      "    <key>Label</key>";
      "    <string>com.xdr.brightness</string>";
      "    <key>ProgramArguments</key>";
      "    <array>";
      "        <string>" +:+ sys_executable w +:+ "</string>";
      "        <string>" +:+ script_abspath w +:+ "</string>";
      "    </array>";
      "    <key>RunAtLoad</key>";
      "    <true/>";
      "    <key>KeepAlive</key>";
      "    <false/>";
      "</dict>";
      "</plist>" ]).

Definition enable_startup : M app unit :=
  w ← ask;
  let plist_path := plist_path_of w in
  mkdir_exist_ok (parent plist_path);;
  write_text plist_path (plist_content w);;
  subprocess_run (Launchctl "load" plist_path) false.

Definition disable_startup : M app unit :=
  w ← ask;
  let plist_path := plist_path_of w in
  ex ← path_exists plist_path;
  if ex : bool then
    subprocess_run (Launchctl "unload" plist_path) false;;
    unlink plist_path
  else ret tt.

(** [sender] is the Launch at Startup item. *)
Definition toggle_startup : M app unit :=
  is_enabled ← is_startup_enabled;
  if is_enabled : bool then
    disable_startup;;
    modify (set_startup_title "🚀 Launch at Startup");;
    show_notification "Startup Disabled" "XDR Brightness won't launch at startup"
  else
    enable_startup;;
    modify (set_startup_title "🚀 Launch at Startup ✓");;
    show_notification "Startup Enabled" "XDR Brightness will launch at startup".

Definition update_menu_state : M app unit :=
  installed ← is_startup_enabled;
  if installed : bool then modify (set_startup_title "🚀 Launch at Startup ✓")
  else ret tt.

Definition setup_menu : M app unit := update_menu_state.

(** [__init__]: the constructor of [rumps.App] first, then the fields
    and the menu, whose items start with the titles they are made with. *)
Definition init : M app unit :=
  rumps_App_init "☀️";;
  put (mkApp 1.0 true None "✅ Enabled" "🚀 Launch at Startup");;
  setup_menu.

(** What the menu routes to the brightness controller. *)
Inductive request :=
| Outdoor
| Bright
| Normal
| Dim
| Slider (value : Q).

Definition handle (r : request) : M app unit :=
  match r with
  | Outdoor => set_outdoor
  | Bright => set_bright
  | Normal => set_normal
  | Dim => set_dim
  | Slider v => slider_changed v
  end.

End Menubar.

(** * XDR_Brightness.py *)

Module Ddcctl.

Definition DDCCTL_PATH : string := "/usr/local/bin/ddcctl".
Definition BRIGHTNESS_XDR : string := "100".
Definition BRIGHTNESS_NORMAL : string := "50".

Record app := mkApp {
  enabled : bool;
  enable_item_state : bool;      (* self.enable_item.state *)
  startup_item_state : bool      (* self.startup_item.state *)
}.

Definition set_enabled (b : bool) (s : app) : app :=
  mkApp b (enable_item_state s) (startup_item_state s).

Definition _run_ddcctl (enable : bool) : M app unit :=
  let brightness := if enable then BRIGHTNESS_XDR else BRIGHTNESS_NORMAL in
  let cmd := Ddcctl brightness in
  try_except_CalledProcessError
    (subprocess_run cmd true)
    (fun c rc => emit (EvAlert "ddcctl failed:" (CalledProcessError c rc))).

Definition _plist_path (w : world) : path := plist_path_of w.

Definition _launch_agent_installed : M app bool :=
  w ← ask;
  path_exists (_plist_path w).

Definition update_menu_state : M app unit :=
  s ← get;
  installed ← _launch_agent_installed;
  put (mkApp (enabled s) (enabled s) installed).

Definition toggle_xdr : M app unit :=
  modify (fun s => set_enabled (negb (enabled s)) s);;
  s ← get;
  _run_ddcctl (enabled s);;
  update_menu_state.

Definition plist (w : world) : string :=
  unlines (plist_prolog ++
    [ "<dict>";
      "    <key>Label</key><string>com.xdr.brightness</string>";
      "    <key>ProgramArguments</key>";
      "    <array>";
      "        <string>/usr/bin/python3</string>";
      "        <string>" +:+ script_file w +:+ "</string>";
      "    </array>";
      "    <key>RunAtLoad</key><true/>";
      "</dict>";
      "</plist>" ]).

Definition _install_launch_agent : M app unit :=
  w ← ask;
  let path := _plist_path w in
  write_text path (plist w);;
  subprocess_run (Launchctl "load" path) false.

Definition _remove_launch_agent : M app unit :=
  w ← ask;
  let path := _plist_path w in
  ex ← path_exists path;
  if ex : bool then
    subprocess_run (Launchctl "unload" path) false;;
    unlink path
  else ret tt.

Definition toggle_startup : M app unit :=
  installed ← _launch_agent_installed;
  (if installed : bool then _remove_launch_agent else _install_launch_agent);;
  update_menu_state.

(** The body of [__init__] once [super().__init__] has returned: the
    items start unchecked, [enabled] false, and the menu is refreshed.
    What the constructor of [rumps.App] does before is in [construct]. *)
Definition init : M app unit :=
  put (mkApp false false false);;
  update_menu_state.

(** [XDRBrightnessApp()] *)
Definition construct : M app unit :=
  rumps_App_init "☀️";;
  init.

Definition cli_install_launch_agent : M app unit :=
  construct;;
  _install_launch_agent;;
  print "LaunchAgent installed. It will run at next login.".

End Ddcctl.

(** * The login agent of either program

    The spec's [LoginAgentManager] - [install], [remove], [isInstalled] -
    is [enable_startup], [disable_startup], [is_startup_enabled] in the
    menu-bar app and [_install_launch_agent], [_remove_launch_agent],
    [_launch_agent_installed] in the ddcctl variant. *)

Inductive program :=
| MenubarApp
| DdcctlApp.

Definition app_of (p : program) : Type :=
  match p with
  | MenubarApp => Menubar.app
  | DdcctlApp => Ddcctl.app
  end.

Definition install (p : program) : M (app_of p) unit :=
  match p with
  | MenubarApp => Menubar.enable_startup
  | DdcctlApp => Ddcctl._install_launch_agent
  end.

Definition remove (p : program) : M (app_of p) unit :=
  match p with
  | MenubarApp => Menubar.disable_startup
  | DdcctlApp => Ddcctl._remove_launch_agent
  end.

Definition isInstalled (p : program) : M (app_of p) bool :=
  match p with
  | MenubarApp => Menubar.is_startup_enabled
  | DdcctlApp => Ddcctl._launch_agent_installed
  end.

(** The text [install] writes. *)
Definition record_text (p : program) (w : world) : string :=
  match p with
  | MenubarApp => Menubar.plist_content w
  | DdcctlApp => Ddcctl.plist w
  end.

(** ** What a record must say

    The spec's LoginAgentRecord: the identifier, the executable to launch
    with its arguments, and the run-at-load flag. *)





(** * What is observed of a run *)

(** The brightness levels handed to CoreDisplay, in order. *)
Definition swift_levels (t : list event) : list Q :=
  omap (fun e => match e with EvSpawn (Swift l) => Some l | _ => None end) t.

(** The alerts shown. *)
Definition alerts (t : list event) : list (string * exn) :=
  omap (fun e => match e with EvAlert text exc => Some (text, exc) | _ => None end) t.

(** What was printed. *)
Definition printed (t : list event) : list string :=
  omap (fun e => match e with EvPrint text => Some text | _ => None end) t.

(** The directory the constructor of [rumps.App] makes. *)
Definition app_support_dir (w : world) : path :=
  home w ++ ["Library"; "Application Support"; "☀️"].

(** Is the LaunchAgent record on disk? *)
Definition on_disk (w : world) : bool :=
  bool_decide (is_Some (fs w !! plist_path_of w)).

(** The level a menu request asks for. *)
Definition requested_level (r : Menubar.request) : Q :=
  match r with
  | Menubar.Outdoor => 3.2
  | Menubar.Bright => 2.0
  | Menubar.Normal => 1.0
  | Menubar.Dim => 0.5
  | Menubar.Slider v => (v / 100.0) * 3.2
  end.

(** The slider item is made with [min_value=0, max_value=100]. *)
Definition in_slider_range (r : Menubar.request) : Prop :=
  match r with
  | Menubar.Slider v => (0 <= v)%Q /\ (v <= 100)%Q
  | _ => True
  end.

(** Following the spec's words: a normalized level [L] reaches the
    external call on the 0-100 scale ([0.32] as [32]). *)
Definition spec_hardware_value (L : Q) : Q := (100 * L)%Q.

(** ** The presets, as the menu lists them *)

Definition is_preset (r : Menubar.request) : Prop :=
  match r with
  | Menubar.Slider _ => False
  | _ => True
  end.

(** Subtitle and message of the notification a preset posts. *)
Definition preset_notice (r : Menubar.request) : string * string :=
  match r with
  | Menubar.Outdoor => ("Outdoor Mode", "1600 nits - Maximum brightness")
  | Menubar.Bright => ("Bright Mode", "1000 nits")
  | Menubar.Normal => ("Normal Mode", "500 nits")
  | _ => ("Dim Mode", "250 nits")
  end.

Definition preset_icon (r : Menubar.request) : string :=
  match r with
  | Menubar.Outdoor => "☀️"
  | Menubar.Bright => "💡"
  | Menubar.Normal => "🖥️"
  | _ => "🌙"
  end.

(** The brightness [_run_ddcctl] asks for. *)
Definition ddcctl_for (enable : bool) : command :=
  Ddcctl (if enable then Ddcctl.BRIGHTNESS_XDR else Ddcctl.BRIGHTNESS_NORMAL).

(** ** Sessions

    [app.run()] hands each click to its callback, one after the other, on
    the same object and in the world the previous one left - also when a
    callback raised. *)

Inductive menubar_action :=
| Request (r : Menubar.request)
| ToggleEnabled.

Definition menubar_perform (a : menubar_action) : M Menubar.app unit :=
  match a with
  | Request r => Menubar.handle r
  | ToggleEnabled => Menubar.toggle_enabled
  end.

Inductive ddcctl_action :=
| ToggleXdr
| ToggleStartup.

Definition ddcctl_perform (a : ddcctl_action) : M Ddcctl.app unit :=
  match a with
  | ToggleXdr => Ddcctl.toggle_xdr
  | ToggleStartup => Ddcctl.toggle_startup
  end.

Fixpoint session {St A : Type} (perform : A -> M St unit) (acts : list A)
    (s : St) (w : world) : St * world :=
  match acts with
  | [] => (s, w)
  | a :: rest => let out := perform a s w in session perform rest out.1.2 out.2
  end.

(** Every child process can be started. *)
Definition all_start (w : world) : Prop :=
  forall n, exists rc, procs w n = Exited rc.

(** The check marks of the ddcctl variant show the state. *)
Definition menu_in_sync (s : Ddcctl.app) (w : world) : Prop :=
  Ddcctl.enable_item_state s = Ddcctl.enabled s /\
  Ddcctl.startup_item_state s = on_disk w.

(** ** Sample worlds *)

Definition me : path := ["Users"; "me"].

(** A home directory with [Library/LaunchAgents] ... *)
Definition mac_fs : gmap path node :=
  <[me ++ ["Library"; "LaunchAgents"] := Dir]>
    (<[me ++ ["Library"] := Dir]> (<[me := Dir]> ∅)).

(** ... and one where no LaunchAgent was ever installed: the directory is
    not there yet. *)
Definition fresh_fs : gmap path node :=
  <[me ++ ["Library"] := Dir]> (<[me := Dir]> ∅).

(** No image file is named by an emoji. *)
Definition mac (f : gmap path node) (answers : nat -> proc_outcome) : world :=
  mkWorld me "/usr/bin/python3" "/Users/me/xdr.py" "/Users/me/xdr.py"
          (fun _ => false) f answers 0 [].

Definition all_exit (rc : Z) : nat -> proc_outcome := fun _ => Exited rc.

(** The menu-bar app after Outdoor was chosen. *)
Definition outdoor_app : Menubar.app :=
  Menubar.mkApp 3.2 true None "✅ Enabled" "🚀 Launch at Startup".

Definition disabled_app : Menubar.app :=
  Menubar.mkApp 1.0 false None "❌ Disabled" "🚀 Launch at Startup".

(** A disk that holds a record already. *)
Definition installed_fs : gmap path node :=
  <[me ++ ["Library"; "LaunchAgents"; "com.xdr.brightness.plist"] := File "<plist/>"]> mac_fs.

Definition idle_app : Ddcctl.app := Ddcctl.mkApp false false false.

(** * Equations of the primitives *)

Section Equations.
Context {St : Type}.
Implicit Types (s : St) (w : world).

Lemma bind_ok {A B} (m : M St A) (k : A -> M St B) s w a s' w' :
  m s w = (Ok a, s', w') -> (m ≫= k) s w = k a s' w'.
Proof. intros H. unfold mbind, M_bind, bind. now rewrite H. Qed.

Lemma bind_raise {A B} (m : M St A) (k : A -> M St B) s w e s' w' :
  m s w = (Raise e, s', w') -> (m ≫= k) s w = (Raise e, s', w').
Proof. intros H. unfold mbind, M_bind, bind. now rewrite H. Qed.

Lemma spawn_exited c s w rc :
  procs w (nprocs w) = Exited rc ->
  spawn c s w = (Ok rc, s, tick (log (EvSpawn c) w)).
Proof. intros H. unfold spawn. now rewrite H. Qed.

Lemma spawn_failed c s w e :
  procs w (nprocs w) = SpawnFailed e ->
  spawn c s w = (Raise (oserror e), s, tick (log (EvSpawn c) w)).
Proof. intros H. unfold spawn. now rewrite H. Qed.

(** Without [check], whatever the exit status. *)
Lemma subprocess_run_unchecked c s w rc :
  procs w (nprocs w) = Exited rc ->
  subprocess_run c false s w = (Ok tt, s, tick (log (EvSpawn c) w)).
Proof.
  intros H. unfold subprocess_run.
  now rewrite (bind_ok _ _ _ _ _ _ _ (spawn_exited c s w rc H)).
Qed.

Lemma popen_communicate_exited c s w rc :
  procs w (nprocs w) = Exited rc ->
  popen_communicate c s w = (Ok tt, s, tick (log (EvSpawn c) w)).
Proof.
  intros H. unfold popen_communicate.
  now rewrite (bind_ok _ _ _ _ _ _ _ (spawn_exited c s w rc H)).
Qed.

Lemma popen_communicate_failed c s w e :
  procs w (nprocs w) = SpawnFailed e ->
  popen_communicate c s w = (Raise (oserror e), s, tick (log (EvSpawn c) w)).
Proof.
  intros H. unfold popen_communicate.
  now rewrite (bind_raise _ _ _ _ _ _ _ (spawn_failed c s w e H)).
Qed.

Lemma path_exists_eq p s w :
  path_exists p s w = (Ok (bool_decide (is_Some (fs w !! p))), s, w).
Proof. reflexivity. Qed.
End Equations.

(** Runs of callbacks are computed by unfolding the monad. *)
Ltac monad_ops :=
  unfold mbind, M_bind, mret, M_ret, bind, ret, raise, get, put, modify, ask, emit.

Lemma set_brightness_exited level s w rc :
  Menubar.enabled s = true -> procs w (nprocs w) = Exited rc ->
  Menubar.set_brightness level s w =
    (Ok tt, Menubar.set_current_brightness level s, tick (log (EvSpawn (Swift level)) w)).
Proof.
  intros H Hp. unfold Menubar.set_brightness, popen_communicate, spawn. monad_ops.
  rewrite H. simpl. rewrite Hp. reflexivity.
Qed.

Lemma set_brightness_failed level s w e :
  Menubar.enabled s = true -> procs w (nprocs w) = SpawnFailed e ->
  Menubar.set_brightness level s w =
    (Raise (oserror e), s, tick (log (EvSpawn (Swift level)) w)).
Proof.
  intros H Hp. unfold Menubar.set_brightness, popen_communicate, spawn. monad_ops.
  rewrite H. simpl. rewrite Hp. reflexivity.
Qed.

(** Switching off: the flag goes first, so the reset that follows is
    stopped at the guard of [set_brightness]. *)
Lemma toggle_enabled_off s w :
  Menubar.enabled s = true ->
  let out := Menubar.toggle_enabled s w in
  out.2 = w /\
  Menubar.enabled out.1.2 = false /\
  Menubar.current_brightness out.1.2 = Menubar.current_brightness s.
Proof.
  intros H. unfold Menubar.toggle_enabled, Menubar.set_brightness, Menubar.update_icon.
  monad_ops. rewrite H. simpl. destruct (image_opens w _); simpl; auto.
Qed.

Lemma run_ddcctl_exit_zero enable s w :
  procs w (nprocs w) = Exited 0 ->
  Ddcctl._run_ddcctl enable s w =
    (Ok tt, s,
     tick (log (EvSpawn (Ddcctl (if enable then Ddcctl.BRIGHTNESS_XDR
                                 else Ddcctl.BRIGHTNESS_NORMAL))) w)).
Proof.
  intros Hp. unfold Ddcctl._run_ddcctl, try_except_CalledProcessError, subprocess_run, spawn.
  monad_ops. rewrite Hp. reflexivity.
Qed.

Lemma run_ddcctl_exit_nonzero (enable : bool) s w rc :
  procs w (nprocs w) = Exited rc -> rc <> 0%Z ->
  let cmd := Ddcctl (if enable then Ddcctl.BRIGHTNESS_XDR else Ddcctl.BRIGHTNESS_NORMAL) in
  Ddcctl._run_ddcctl enable s w =
    (Ok tt, s,
     log (EvAlert "ddcctl failed:" (CalledProcessError cmd rc))
         (tick (log (EvSpawn cmd) w))).
Proof.
  intros Hp Hrc cmd.
  unfold Ddcctl._run_ddcctl, try_except_CalledProcessError, subprocess_run, spawn.
  monad_ops. rewrite Hp. simpl.
  destruct (Z.eqb_spec rc 0) as [->|_]; [contradiction|]. reflexivity.
Qed.

Lemma run_ddcctl_failed enable s w e :
  procs w (nprocs w) = SpawnFailed e ->
  Ddcctl._run_ddcctl enable s w =
    (Raise (oserror e), s,
     tick (log (EvSpawn (Ddcctl (if enable then Ddcctl.BRIGHTNESS_XDR
                                 else Ddcctl.BRIGHTNESS_NORMAL))) w)).
Proof.
  intros Hp. unfold Ddcctl._run_ddcctl, try_except_CalledProcessError, subprocess_run, spawn.
  monad_ops. rewrite Hp. destruct e; reflexivity.
Qed.

(** * The LaunchAgent on disk *)

Lemma parent_plist_path w : parent (plist_path_of w) = launch_agents_dir w.
Proof.
  unfold parent, plist_path_of, launch_agents_dir.
  now rewrite removelast_app by discriminate.
Qed.


(** What [_install_launch_agent] does, by what it finds on disk. *)
Lemma install_launch_agent_ok s w rc :
  fs w !! launch_agents_dir w = Some Dir ->
  fs w !! plist_path_of w <> Some Dir ->
  procs w (nprocs w) = Exited rc ->
  Ddcctl._install_launch_agent s w =
    (Ok tt, s,
     tick (log (EvSpawn (Launchctl "load" (plist_path_of w)))
       (log (EvWrite (plist_path_of w) (Ddcctl.plist w))
         (with_fs (<[plist_path_of w := File (Ddcctl.plist w)]> (fs w)) w)))).
Proof.
  intros Hd Hp Hrc.
  unfold Ddcctl._install_launch_agent, Ddcctl._plist_path, write_text, subprocess_run, spawn.
  monad_ops. rewrite parent_plist_path, Hd.
  destruct (fs w !! plist_path_of w) as [[c|]|] eqn:E; try congruence;
    simpl; rewrite Hrc; reflexivity.
Qed.

Lemma install_launch_agent_no_dir s w :
  fs w !! launch_agents_dir w = None ->
  fs w !! plist_path_of w <> Some Dir ->
  Ddcctl._install_launch_agent s w = (Raise FileNotFoundError, s, w).
Proof.
  intros Hd Hp.
  unfold Ddcctl._install_launch_agent, Ddcctl._plist_path, write_text.
  monad_ops. rewrite parent_plist_path, Hd.
  destruct (fs w !! plist_path_of w) as [[c|]|] eqn:E; try congruence; reflexivity.
Qed.

(** Whatever the disk and the answers: nothing at all, or the write, then
    the registration. *)
Lemma install_launch_agent_trace s w :
  let w' := (Ddcctl._install_launch_agent s w).2 in
  (w' = w) \/
  (trace w' = trace w ++ [EvWrite (plist_path_of w) (Ddcctl.plist w);
                          EvSpawn (Launchctl "load" (plist_path_of w))]).
Proof.
  unfold Ddcctl._install_launch_agent, Ddcctl._plist_path, write_text, subprocess_run, spawn.
  monad_ops.
  destruct (fs w !! plist_path_of w) as [[c|]|] eqn:E;
    destruct (fs w !! parent (plist_path_of w)) as [[c'|]|] eqn:E';
    simpl; try (left; reflexivity);
    destruct (procs w (nprocs w)); simpl; right; now rewrite <- app_assoc.
Qed.


Lemma parent_launch_agents_dir w : parent (launch_agents_dir w) = home w ++ ["Library"].
Proof.
  unfold parent, launch_agents_dir. now rewrite removelast_app by discriminate.
Qed.

Lemma agent_paths_differ (h : path) :
  h ++ ["Library"; "LaunchAgents"] <> h ++ ["Library"; "LaunchAgents"; "com.xdr.brightness.plist"].
Proof. intros E. apply app_inv_head in E. discriminate. Qed.

Lemma agent_paths_differ' (h : path) :
  h ++ ["Library"; "LaunchAgents"; "com.xdr.brightness.plist"] <> h ++ ["Library"; "LaunchAgents"].
Proof. intros E. apply app_inv_head in E. discriminate. Qed.

(** Case analysis on what the disk holds and what the child processes
    answer, along the run of a callback. *)
Ltac on_disk_cases :=
  repeat (simpl;
    rewrite ?lookup_insert_eq;
    rewrite ?(lookup_insert_ne _ _ _ _ (agent_paths_differ _));
    match goal with
    | H : ?x = _ |- context [match ?x with _ => _ end] => rewrite H
    | |- context [match ?x with _ => _ end] =>
        lazymatch type of x with
        | option node => destruct x as [[?|]|] eqn:?
        | proc_outcome => destruct x eqn:?
        end
    end).

Arguments Menubar.plist_content : simpl never.
Arguments Ddcctl.plist : simpl never.

Ltac lookups :=
  rewrite ?lookup_insert_eq,
          ?(lookup_insert_ne _ _ _ _ (agent_paths_differ _)),
          ?(lookup_insert_ne _ _ _ _ (agent_paths_differ' _)),
          ?lookup_insert_eq.

Ltac unfold_paths := unfold plist_path_of, launch_agents_dir in *.

Lemma enable_startup_post s w s1 w1 :
  Menubar.enable_startup s w = (Ok tt, s1, w1) ->
  s1 = s /\
  fs w1 !! plist_path_of w1 = Some (File (Menubar.plist_content w1)) /\
  fs w1 !! launch_agents_dir w1 = Some Dir.
Proof.
  unfold Menubar.enable_startup, mkdir_exist_ok, write_text, subprocess_run, spawn.
  monad_ops. rewrite parent_plist_path, parent_launch_agents_dir. unfold_paths.
  on_disk_cases; intros [= <- <-]; simpl; lookups; auto.
Qed.

Lemma install_launch_agent_post s w s1 w1 :
  Ddcctl._install_launch_agent s w = (Ok tt, s1, w1) ->
  s1 = s /\
  fs w1 !! plist_path_of w1 = Some (File (Ddcctl.plist w1)) /\
  fs w1 !! launch_agents_dir w1 = Some Dir.
Proof.
  unfold Ddcctl._install_launch_agent, Ddcctl._plist_path, write_text, subprocess_run, spawn.
  monad_ops. rewrite parent_plist_path. unfold_paths.
  on_disk_cases; intros [= <- <-]; simpl; lookups; auto.
Qed.

Lemma on_disk_true w n : fs w !! plist_path_of w = Some n -> on_disk w = true.
Proof. intros H. unfold on_disk. rewrite H. reflexivity. Qed.

Lemma on_disk_false w : fs w !! plist_path_of w = None -> on_disk w = false.
Proof. intros H. unfold on_disk. rewrite H. reflexivity. Qed.

Lemma is_startup_enabled_eq s w : Menubar.is_startup_enabled s w = (Ok (on_disk w), s, w).
Proof. reflexivity. Qed.

Lemma launch_agent_installed_eq s w : Ddcctl._launch_agent_installed s w = (Ok (on_disk w), s, w).
Proof. reflexivity. Qed.

Lemma on_disk_external_delete w : on_disk (external_delete (plist_path_of w) w) = false.
Proof.
  apply on_disk_false. unfold external_delete. simpl.
  change (plist_path_of (with_fs (delete (plist_path_of w) (fs w)) w)) with (plist_path_of w).
  apply lookup_delete_eq.
Qed.

(** [enable_startup] where the LaunchAgents directory is there, ... *)
Lemma enable_startup_ok s w rc :
  fs w !! launch_agents_dir w = Some Dir ->
  fs w !! plist_path_of w <> Some Dir ->
  procs w (nprocs w) = Exited rc ->
  Menubar.enable_startup s w =
    (Ok tt, s,
     tick (log (EvSpawn (Launchctl "load" (plist_path_of w)))
       (log (EvWrite (plist_path_of w) (Menubar.plist_content w))
         (with_fs (<[plist_path_of w := File (Menubar.plist_content w)]> (fs w)) w)))).
Proof.
  intros Hd Hp Hrc.
  unfold Menubar.enable_startup, mkdir_exist_ok, write_text, subprocess_run, spawn.
  monad_ops. rewrite parent_plist_path, Hd. simpl. rewrite Hd.
  destruct (fs w !! plist_path_of w) as [[c|]|] eqn:E; try congruence;
    simpl; rewrite Hrc; reflexivity.
Qed.

(** ... and where it is made first. *)
Lemma enable_startup_mkdir s w rc :
  fs w !! launch_agents_dir w = None ->
  fs w !! parent (launch_agents_dir w) = Some Dir ->
  fs w !! plist_path_of w <> Some Dir ->
  procs w (nprocs w) = Exited rc ->
  exists w',
    Menubar.enable_startup s w = (Ok tt, s, w') /\
    trace w' = trace w ++ [EvMkdir (launch_agents_dir w);
                           EvWrite (plist_path_of w) (Menubar.plist_content w);
                           EvSpawn (Launchctl "load" (plist_path_of w))] /\
    fs w' = <[plist_path_of w := File (Menubar.plist_content w)]>
              (<[launch_agents_dir w := Dir]> (fs w)).
Proof.
  intros Hd Hl Hp Hrc.
  unfold Menubar.enable_startup, mkdir_exist_ok, write_text, subprocess_run, spawn.
  monad_ops. rewrite parent_plist_path. unfold_paths.
  on_disk_cases; try (contradict Hp; assumption);
    eexists; (split; [reflexivity|]); simpl; rewrite <- ?app_assoc; auto.
Qed.

(** Whatever the disk and the answers, [enable_startup] leaves one of
    these behind, in this order: the registration comes last and only
    after the write. *)
Lemma enable_startup_trace s w :
  let w' := (Menubar.enable_startup s w).2 in
  exists new,
    trace w' = trace w ++ new /\
    (new = [] \/
     new = [EvMkdir (launch_agents_dir w)] \/
     new = [EvWrite (plist_path_of w) (Menubar.plist_content w);
            EvSpawn (Launchctl "load" (plist_path_of w))] \/
     new = [EvMkdir (launch_agents_dir w);
            EvWrite (plist_path_of w) (Menubar.plist_content w);
            EvSpawn (Launchctl "load" (plist_path_of w))]).
Proof.
  unfold Menubar.enable_startup, mkdir_exist_ok, write_text, subprocess_run, spawn.
  monad_ops. rewrite parent_plist_path, parent_launch_agents_dir. unfold_paths.
  on_disk_cases; simpl; rewrite <- ?app_assoc;
    first [ exists []; split; [now rewrite app_nil_r | auto]
          | eexists; split; [reflexivity | simpl; auto 6] ].
Qed.

(** * Removing the LaunchAgent *)

Lemma disable_startup_absent s w :
  fs w !! plist_path_of w = None -> Menubar.disable_startup s w = (Ok tt, s, w).
Proof.
  intros H. unfold Menubar.disable_startup, path_exists. monad_ops. now rewrite H.
Qed.

Lemma remove_launch_agent_absent s w :
  fs w !! plist_path_of w = None -> Ddcctl._remove_launch_agent s w = (Ok tt, s, w).
Proof.
  intros H. unfold Ddcctl._remove_launch_agent, Ddcctl._plist_path, path_exists.
  monad_ops. now rewrite H.
Qed.

Lemma disable_startup_file s w content rc :
  fs w !! plist_path_of w = Some (File content) ->
  procs w (nprocs w) = Exited rc ->
  Menubar.disable_startup s w =
    (Ok tt, s,
     log (EvUnlink (plist_path_of w))
       (with_fs (delete (plist_path_of w) (fs w))
         (tick (log (EvSpawn (Launchctl "unload" (plist_path_of w))) w)))).
Proof.
  intros H Hrc. unfold Menubar.disable_startup, path_exists, subprocess_run, spawn, unlink.
  monad_ops. rewrite H. simpl. rewrite Hrc. simpl. rewrite H. reflexivity.
Qed.

Lemma remove_launch_agent_file s w content rc :
  fs w !! plist_path_of w = Some (File content) ->
  procs w (nprocs w) = Exited rc ->
  Ddcctl._remove_launch_agent s w =
    (Ok tt, s,
     log (EvUnlink (plist_path_of w))
       (with_fs (delete (plist_path_of w) (fs w))
         (tick (log (EvSpawn (Launchctl "unload" (plist_path_of w))) w)))).
Proof.
  intros H Hrc.
  unfold Ddcctl._remove_launch_agent, Ddcctl._plist_path, path_exists, subprocess_run,
    spawn, unlink.
  monad_ops. rewrite H. simpl. rewrite Hrc. simpl. rewrite H. reflexivity.
Qed.

Lemma disable_startup_post s w s1 w1 :
  Menubar.disable_startup s w = (Ok tt, s1, w1) ->
  s1 = s /\ fs w1 !! plist_path_of w1 = None.
Proof.
  unfold Menubar.disable_startup, path_exists, subprocess_run, spawn, unlink.
  monad_ops. unfold_paths.
  destruct (fs w !! _) as [[c|]|] eqn:E; simpl;
    try destruct (procs w (nprocs w)) eqn:Hp; simpl; rewrite ?E;
    intros [= <- <-]; simpl; rewrite ?lookup_delete_eq; auto.
Qed.

Lemma remove_launch_agent_post s w s1 w1 :
  Ddcctl._remove_launch_agent s w = (Ok tt, s1, w1) ->
  s1 = s /\ fs w1 !! plist_path_of w1 = None.
Proof.
  unfold Ddcctl._remove_launch_agent, Ddcctl._plist_path, path_exists, subprocess_run,
    spawn, unlink.
  monad_ops. unfold_paths.
  destruct (fs w !! _) as [[c|]|] eqn:E; simpl;
    try destruct (procs w (nprocs w)) eqn:Hp; simpl; rewrite ?E;
    intros [= <- <-]; simpl; rewrite ?lookup_delete_eq; auto.
Qed.

(** * The brightness controller *)

(** The sibling path: the ddcctl variant's toggle, switching XDR off,
    does send the comfort level to the display. *)
Lemma toggle_xdr_off_resets s w :
  Ddcctl.enabled s = true -> procs w (nprocs w) = Exited 0 ->
  trace (Ddcctl.toggle_xdr s w).2 = trace w ++ [EvSpawn (Ddcctl Ddcctl.BRIGHTNESS_NORMAL)].
Proof.
  intros H Hp.
  unfold Ddcctl.toggle_xdr, Ddcctl.update_menu_state, Ddcctl._launch_agent_installed,
    Ddcctl._run_ddcctl, try_except_CalledProcessError, subprocess_run, spawn, path_exists.
  monad_ops. simpl. rewrite H, Hp. reflexivity.
Qed.

(** C1 (the code departs from the claim).  Switching the menu-bar app
    from enabled to disabled must send the safe default level 1.0 to the
    display before the flag is cleared.  [toggle_enabled] clears the flag
    first, so the guard of [set_brightness] turns its own reset
    ([set_brightness(1.0)  # Reset to normal when disabled]) into a
    no-op: with the display at the outdoor level 3.2, the toggle leaves
    the flag cleared, [current_brightness] at 3.2 and the world as it
    was - no child process was started, no level sent. *)
Theorem toggle_enabled_disabling_sends_nothing :
  let out := Menubar.toggle_enabled outdoor_app (mac mac_fs (all_exit 0)) in
  Menubar.enabled out.1.2 = false /\
  Menubar.current_brightness out.1.2 = 3.2%Q /\
  swift_levels (trace out.2) = [] /\
  trace out.2 = [] /\
  nprocs out.2 = 0.
Proof.
  intros out.
  destruct (toggle_enabled_off outdoor_app (mac mac_fs (all_exit 0)) eq_refl)
    as (Hw & He & Hb).
  fold out in Hw, He, Hb. rewrite Hw, He, Hb. repeat split.
Qed.

(** C2, as stated, fails: the Outdoor preset hands 3.2 to the external
    call, which is above 1. *)
Lemma set_outdoor_level_above_one :
  swift_levels (trace (Menubar.handle Menubar.Outdoor outdoor_app (mac mac_fs (all_exit 0))).2)
    = [3.2%Q] /\
  ~ (3.2 <= 1)%Q.
Proof.
  split; [reflexivity|]. intros H. now apply Qle_bool_iff in H.
Qed.

Lemma slider_level_bounds (v : Q) :
  (0 <= v)%Q -> (v <= 100)%Q ->
  (0 <= (v / 100.0) * 3.2)%Q /\ ((v / 100.0) * 3.2 <= 3.2)%Q.
Proof.
  intros H0 H1. destruct v as [n d]. unfold Qle, Qdiv, Qmult, Qinv in *. simpl in *.
  split; lia.
Qed.

Lemma requested_level_bounds r :
  in_slider_range r ->
  (0 <= requested_level r)%Q /\ (requested_level r <= 3.2)%Q.
Proof.
  destruct r; simpl; intros H;
    try (split; apply Qle_bool_iff; reflexivity).
  destruct H. now apply slider_level_bounds.
Qed.

Lemma preset_levels (level : Q) (title message icon : string) (v : Q) s w :
  exists new,
    trace ((Menubar.set_brightness level;;
            Menubar.show_notification title message;;
            Menubar.update_icon icon;;
            Menubar.menu_brightness_set_value v) s w).2 = trace w ++ new /\
    (swift_levels new = [] \/ swift_levels new = [level]).
Proof.
  unfold Menubar.set_brightness, Menubar.show_notification, Menubar.update_icon,
    Menubar.menu_brightness_set_value, popen_communicate, spawn.
  monad_ops.
  destruct (Menubar.enabled s); simpl;
    [destruct (procs w (nprocs w)); simpl|];
    try destruct (image_opens w icon); simpl;
    rewrite <- ?app_assoc;
    first [ exists []; split; [now rewrite app_nil_r | now left]
          | eexists; split; [reflexivity | simpl; auto] ].
Qed.

Lemma slider_levels (value : Q) s w :
  exists new,
    trace (Menubar.slider_changed value s w).2 = trace w ++ new /\
    (swift_levels new = [] \/ swift_levels new = [((value / 100.0) * 3.2)%Q]).
Proof.
  unfold Menubar.slider_changed, Menubar.set_brightness, Menubar.update_icon,
    popen_communicate, spawn.
  monad_ops.
  destruct (Menubar.enabled s) eqn:E; simpl; rewrite ?E; simpl;
    [destruct (procs w (nprocs w)); simpl|];
    repeat match goal with |- context [Qle_bool ?a ?b] => destruct (Qle_bool a b) end;
    simpl;
    repeat match goal with |- context [image_opens ?a ?b] => destruct (image_opens a b) end;
    simpl;
    first [ exists []; split; [now rewrite app_nil_r | now left]
          | eexists; split; [reflexivity | simpl; auto] ].
Qed.

(** C2 (amended).  Every level that a preset or the slider hands to the
    external display call is the requested level itself, not clamped to
    [0,1]: 3.2, 2.0, 1.0 or 0.5 for the presets, (value / 100) * 3.2 for
    the slider.  For a slider value in [0,100] it lies in [0, 3.2]: never
    negative, never above the maximum of the code's own scale. *)
Theorem external_level_is_requested_level (r : Menubar.request) s w :
  in_slider_range r ->
  exists new,
    trace (Menubar.handle r s w).2 = trace w ++ new /\
    Forall (fun L => L = requested_level r /\ (0 <= L)%Q /\ (L <= 3.2)%Q)
           (swift_levels new).
Proof.
  intros Hr. pose proof (requested_level_bounds r Hr) as Hb.
  assert (exists new, trace (Menubar.handle r s w).2 = trace w ++ new /\
            (swift_levels new = [] \/ swift_levels new = [requested_level r]))
    as (new & Ht & Hl).
  { destruct r; simpl; first [apply preset_levels | apply slider_levels]. }
  exists new. split; [exact Ht|].
  destruct Hl as [-> | ->]; [constructor|]. constructor; [tauto | constructor].
Qed.

Lemma external_level_is_requested_level_witness :
  exists new,
    trace (Menubar.handle (Menubar.Slider 50) outdoor_app (mac mac_fs (all_exit 0))).2
      = [] ++ new /\
    Forall (fun L => L = requested_level (Menubar.Slider 50) /\ (0 <= L)%Q /\ (L <= 3.2)%Q)
           (swift_levels new).
Proof.
  apply (external_level_is_requested_level (Menubar.Slider 50) outdoor_app
           (mac mac_fs (all_exit 0))).
  simpl. split; apply Qle_bool_iff; reflexivity.
Defined.

(** C3, as stated, fails: [set_brightness(0.32)] hands 0.32 to the
    external call, not the value 32 of the 0-100 scale. *)
Lemma set_brightness_does_not_scale :
  swift_levels (trace (Menubar.set_brightness 0.32 outdoor_app (mac mac_fs (all_exit 0))).2)
    = [0.32%Q] /\
  ~ (0.32 == spec_hardware_value 0.32)%Q.
Proof.
  split; [reflexivity|]. intros H. now apply Qeq_bool_iff in H.
Qed.

(** C3 (amended).  For every level L, [set_brightness(L)] while enabled,
    when the swift process can be started (whatever it exits with), leaves
    [current_brightness == L] and issues exactly one external call, which
    carries L itself, unscaled. *)
Theorem set_brightness_enabled (L : Q) s w rc :
  Menubar.enabled s = true ->
  procs w (nprocs w) = Exited rc ->
  exists s' w',
    Menubar.set_brightness L s w = (Ok tt, s', w') /\
    Menubar.current_brightness s' = L /\
    Menubar.enabled s' = true /\
    trace w' = trace w ++ [EvSpawn (Swift L)] /\
    nprocs w' = S (nprocs w) /\
    fs w' = fs w.
Proof.
  intros H Hp. rewrite (set_brightness_exited L s w rc H Hp).
  eexists _, _. split; [reflexivity|]. simpl. auto.
Qed.

Lemma set_brightness_enabled_witness :
  exists s' w',
    Menubar.set_brightness 0.32 outdoor_app (mac mac_fs (all_exit 0)) = (Ok tt, s', w') /\
    Menubar.current_brightness s' = 0.32%Q /\
    Menubar.enabled s' = true /\
    trace w' = [] ++ [EvSpawn (Swift 0.32)] /\
    nprocs w' = 1 /\
    fs w' = mac_fs.
Proof.
  apply (set_brightness_enabled 0.32 outdoor_app (mac mac_fs (all_exit 0)) 0%Z);
    reflexivity.
Defined.

(** C4.  For every level, [set_brightness] while the controller is
    disabled returns normally and changes nothing: the object, hence
    [current_brightness], is as before, and so is the world - no external
    call, no event of any kind. *)
Theorem set_brightness_disabled_noop (level : Q) s w :
  Menubar.enabled s = false ->
  Menubar.set_brightness level s w = (Ok tt, s, w).
Proof.
  intros H. unfold Menubar.set_brightness. monad_ops. now rewrite H.
Qed.

Lemma set_brightness_disabled_noop_witness :
  Menubar.set_brightness 3.2 disabled_app (mac mac_fs (all_exit 0)) =
    (Ok tt, disabled_app, mac mac_fs (all_exit 0)).
Proof.
  apply (set_brightness_disabled_noop 3.2 disabled_app (mac mac_fs (all_exit 0))).
  reflexivity.
Defined.

(** C5, as stated, fails: the swift process exits with status 1 and
    [set_brightness] returns normally, records the level as set and shows
    no alert. *)
Lemma nonzero_exit_goes_unnoticed :
  let out := Menubar.set_brightness 3.2 outdoor_app (mac mac_fs (all_exit 1)) in
  out.1.1 = Ok tt /\
  Menubar.current_brightness out.1.2 = 3.2%Q /\
  alerts (trace out.2) = [].
Proof. repeat split. Qed.

(** C5 (amended).  The outcome of the external tool never reaches the
    caller as an error value.  When the tool exits non-zero,
    [_run_ddcctl] shows one alert with the [CalledProcessError] and
    returns normally, and [set_brightness] ignores the status, returns
    normally and records the level.  When the tool cannot be started at
    all, the [OSError] propagates out of both as an exception, no alert is
    shown and the level is not recorded. *)
Theorem external_failure_handling (level : Q) (enable : bool) (sm : Menubar.app)
    (sd : Ddcctl.app) (w : world) (o : proc_outcome) :
  Menubar.enabled sm = true ->
  procs w (nprocs w) = o ->
  o <> Exited 0 ->
  let swift := Swift level in
  let ddcctl := Ddcctl (if enable then Ddcctl.BRIGHTNESS_XDR else Ddcctl.BRIGHTNESS_NORMAL) in
  match o with
  | Exited rc =>
      Menubar.set_brightness level sm w =
        (Ok tt, Menubar.set_current_brightness level sm, tick (log (EvSpawn swift) w)) /\
      Ddcctl._run_ddcctl enable sd w =
        (Ok tt, sd,
         log (EvAlert "ddcctl failed:" (CalledProcessError ddcctl rc))
             (tick (log (EvSpawn ddcctl) w)))
  | SpawnFailed e =>
      Menubar.set_brightness level sm w =
        (Raise (oserror e), sm, tick (log (EvSpawn swift) w)) /\
      Ddcctl._run_ddcctl enable sd w =
        (Raise (oserror e), sd, tick (log (EvSpawn ddcctl) w))
  end.
Proof.
  intros He Ho Hne swift ddcctl. destruct o as [rc|e].
  - split; [now apply set_brightness_exited with rc|].
    apply run_ddcctl_exit_nonzero; [exact Ho | congruence].
  - split; [now apply set_brightness_failed | now apply run_ddcctl_failed].
Qed.

Lemma external_failure_handling_witness :
  Menubar.set_brightness 3.2 outdoor_app (mac mac_fs (all_exit 1)) =
    (Ok tt, Menubar.set_current_brightness 3.2 outdoor_app,
     tick (log (EvSpawn (Swift 3.2)) (mac mac_fs (all_exit 1)))) /\
  Ddcctl._run_ddcctl true idle_app (mac mac_fs (all_exit 1)) =
    (Ok tt, idle_app,
     log (EvAlert "ddcctl failed:" (CalledProcessError (Ddcctl "100") 1))
         (tick (log (EvSpawn (Ddcctl "100")) (mac mac_fs (all_exit 1))))).
Proof.
  apply (external_failure_handling 3.2 true outdoor_app idle_app
           (mac mac_fs (all_exit 1)) (Exited 1));
    [reflexivity | reflexivity | discriminate].
Defined.

(** * The login agent *)

Lemma isInstalled_eq p (s : app_of p) w : isInstalled p s w = (Ok (on_disk w), s, w).
Proof. destruct p; reflexivity. Qed.

Lemma install_post p (s s1 : app_of p) w w1 :
  install p s w = (Ok tt, s1, w1) ->
  s1 = s /\
  fs w1 !! plist_path_of w1 = Some (File (record_text p w1)) /\
  fs w1 !! launch_agents_dir w1 = Some Dir.
Proof.
  destruct p; [apply enable_startup_post | apply install_launch_agent_post].
Qed.

(** Once the directory is there and the path is not a directory itself,
    [install] returns, whatever launchctl exits with. *)
Lemma install_ok p (s : app_of p) w rc :
  fs w !! launch_agents_dir w = Some Dir ->
  fs w !! plist_path_of w <> Some Dir ->
  procs w (nprocs w) = Exited rc ->
  install p s w =
    (Ok tt, s,
     tick (log (EvSpawn (Launchctl "load" (plist_path_of w)))
       (log (EvWrite (plist_path_of w) (record_text p w))
         (with_fs (<[plist_path_of w := File (record_text p w)]> (fs w)) w)))).
Proof.
  destruct p; [apply enable_startup_ok | apply install_launch_agent_ok].
Qed.

Lemma remove_absent p (s : app_of p) w :
  fs w !! plist_path_of w = None -> remove p s w = (Ok tt, s, w).
Proof.
  destruct p; [apply disable_startup_absent | apply remove_launch_agent_absent].
Qed.

(** With a record on disk, [remove] unregisters, then deletes, and
    returns - whatever launchctl exits with. *)
Lemma remove_file p (s : app_of p) w content rc :
  fs w !! plist_path_of w = Some (File content) ->
  procs w (nprocs w) = Exited rc ->
  remove p s w =
    (Ok tt, s,
     log (EvUnlink (plist_path_of w))
       (with_fs (delete (plist_path_of w) (fs w))
         (tick (log (EvSpawn (Launchctl "unload" (plist_path_of w))) w)))).
Proof.
  destruct p; [apply disable_startup_file | apply remove_launch_agent_file].
Qed.

Lemma remove_post p (s s1 : app_of p) w w1 :
  remove p s w = (Ok tt, s1, w1) -> s1 = s /\ fs w1 !! plist_path_of w1 = None.
Proof.
  destruct p; [apply disable_startup_post | apply remove_launch_agent_post].
Qed.

(** C6.  In either program, [isInstalled] is the existence check of the
    record file at call time: it never raises, changes nothing, and its
    answer depends on the disk alone, not on the object (no cache).  So
    after an install that succeeded it answers true, and once the file
    has been deleted behind the program's back it answers false. *)
Theorem isInstalled_reflects_disk (p : program) (s s1 : app_of p) (w w1 : world) :
  install p s w = (Ok tt, s1, w1) ->
  (forall (s' : app_of p) (w' : world),
      isInstalled p s' w' = (Ok (bool_decide (is_Some (fs w' !! plist_path_of w'))), s', w')) /\
  isInstalled p s1 w1 = (Ok true, s1, w1) /\
  (let gone := external_delete (plist_path_of w1) w1 in
   isInstalled p s1 gone = (Ok false, s1, gone)).
Proof.
  intros Hi. apply install_post in Hi as (_ & Hf & _).
  split; [intros; apply isInstalled_eq|]. split.
  - rewrite isInstalled_eq. now rewrite (on_disk_true _ _ Hf).
  - simpl. rewrite isInstalled_eq. now rewrite on_disk_external_delete.
Qed.

Lemma isInstalled_reflects_disk_witness :
  let w1 := (install DdcctlApp idle_app (mac mac_fs (all_exit 0))).2 in
  install DdcctlApp idle_app (mac mac_fs (all_exit 0)) = (Ok tt, idle_app, w1) /\
  isInstalled DdcctlApp idle_app w1 = (Ok true, idle_app, w1) /\
  isInstalled DdcctlApp idle_app (external_delete (plist_path_of w1) w1)
    = (Ok false, idle_app, external_delete (plist_path_of w1) w1).
Proof.
  intros w1.
  assert (install DdcctlApp idle_app (mac mac_fs (all_exit 0)) = (Ok tt, idle_app, w1)) as H
    by (vm_compute; reflexivity).
  split; [exact H|].
  apply (isInstalled_reflects_disk DdcctlApp idle_app idle_app (mac mac_fs (all_exit 0)) w1 H).
Defined.

(** C7.  In either program, [remove] with no record on disk - none was
    ever installed, or a previous [remove] of either program returned -
    returns normally and changes neither the object nor the world: no
    launchctl call, no deletion.  Removing twice is removing once. *)
Theorem remove_without_record_is_noop (p : program) (s : app_of p) (w : world) :
  (fs w !! plist_path_of w = None \/
   exists q (s0 s1 : app_of q) (w0 : world), remove q s0 w0 = (Ok tt, s1, w)) ->
  remove p s w = (Ok tt, s, w).
Proof.
  intros [H | (q & s0 & s1 & w0 & H)]; apply remove_absent; [exact H|].
  now apply remove_post in H.
Qed.

Lemma remove_without_record_is_noop_witness :
  let w1 := (remove MenubarApp outdoor_app (mac installed_fs (all_exit 0))).2 in
  remove MenubarApp outdoor_app (mac installed_fs (all_exit 0)) = (Ok tt, outdoor_app, w1) /\
  remove MenubarApp outdoor_app w1 = (Ok tt, outdoor_app, w1) /\
  remove DdcctlApp idle_app (mac mac_fs (all_exit 0)) = (Ok tt, idle_app, mac mac_fs (all_exit 0)).
Proof.
  intros w1.
  assert (remove MenubarApp outdoor_app (mac installed_fs (all_exit 0))
          = (Ok tt, outdoor_app, w1)) as H by (vm_compute; reflexivity).
  split; [exact H|]. split.
  - apply (remove_without_record_is_noop MenubarApp outdoor_app w1).
    right. exists MenubarApp, outdoor_app, outdoor_app, (mac installed_fs (all_exit 0)).
    exact H.
  - apply (remove_without_record_is_noop DdcctlApp idle_app (mac mac_fs (all_exit 0))).
    left. vm_compute. reflexivity.
Defined.

(** ** Substrings *)

Lemma prefix_append (n r : string) : String.prefix n (n +:+ r) = true.
Proof.
  induction n as [|c n IH]; simpl; [now destruct r|].
  destruct (ascii_dec c c); [exact IH | congruence].
Qed.














(** The menu-bar app on the same disk: it makes the directory, writes,
    registers. *)
Lemma enable_startup_makes_directory :
  (Menubar.enable_startup outdoor_app (mac fresh_fs (all_exit 0))).1.1 = Ok tt /\
  trace (Menubar.enable_startup outdoor_app (mac fresh_fs (all_exit 0))).2 =
    [EvMkdir (me ++ ["Library"; "LaunchAgents"]);
     EvWrite (me ++ ["Library"; "LaunchAgents"; "com.xdr.brightness.plist"])
             (Menubar.plist_content (mac fresh_fs (all_exit 0)));
     EvSpawn (Launchctl "load" (me ++ ["Library"; "LaunchAgents"; "com.xdr.brightness.plist"]))].
Proof. split; reflexivity. Qed.

(** C9 (the code departs from the claim).  Every install must write the
    record, making the parent directory if it is absent, and then
    register it.  On a disk where [~/Library/LaunchAgents] is not there
    yet, [_install_launch_agent] of the ddcctl variant, which has no
    [mkdir], raises [FileNotFoundError] out of [write_text]: nothing is
    written and nothing is registered. *)
Theorem install_launch_agent_needs_the_directory :
  Ddcctl._install_launch_agent idle_app (mac fresh_fs (all_exit 0)) =
    (Raise FileNotFoundError, idle_app, mac fresh_fs (all_exit 0)).
Proof. reflexivity. Qed.

(** * The XDR toggle *)

(** C10.  In the ddcctl variant, [toggle_xdr] flips [enabled] first and
    calls the tool with the flipped flag; when the tool fails - it exits
    non-zero, or it cannot be started - the flip is not taken back.
    After a non-zero exit the callback returns with [enabled] at the
    value asked for (and the alert shown); after a failure to start, the
    exception leaves the object with the flipped flag and the menu not
    refreshed. *)
Theorem toggle_xdr_keeps_the_flip (s : Ddcctl.app) (w : world) (o : proc_outcome) :
  procs w (nprocs w) = o ->
  o <> Exited 0 ->
  let cmd := Ddcctl (if negb (Ddcctl.enabled s) then Ddcctl.BRIGHTNESS_XDR
                     else Ddcctl.BRIGHTNESS_NORMAL) in
  match o with
  | Exited rc =>
      exists s' w',
        Ddcctl.toggle_xdr s w = (Ok tt, s', w') /\
        Ddcctl.enabled s' = negb (Ddcctl.enabled s) /\
        trace w' = trace w ++ [EvSpawn cmd;
                               EvAlert "ddcctl failed:" (CalledProcessError cmd rc)]
  | SpawnFailed e =>
      exists w',
        Ddcctl.toggle_xdr s w =
          (Raise (oserror e), Ddcctl.set_enabled (negb (Ddcctl.enabled s)) s, w') /\
        trace w' = trace w ++ [EvSpawn cmd]
  end.
Proof.
  intros Ho Hne cmd. subst cmd.
  unfold Ddcctl.toggle_xdr, Ddcctl.update_menu_state, Ddcctl._launch_agent_installed,
    Ddcctl._run_ddcctl, try_except_CalledProcessError, subprocess_run, spawn, path_exists.
  monad_ops. simpl. rewrite Ho. destruct o as [rc|e].
  - simpl. destruct (Z.eqb_spec rc 0) as [->|_]; [congruence|]. simpl.
    eexists _, _. split; [reflexivity|]. simpl. split; [reflexivity|].
    now rewrite <- app_assoc.
  - destruct e; simpl; eexists; split; reflexivity.
Qed.

Lemma toggle_xdr_keeps_the_flip_witness :
  exists s' w',
    Ddcctl.toggle_xdr idle_app (mac mac_fs (all_exit 1)) = (Ok tt, s', w') /\
    Ddcctl.enabled s' = true /\
    trace w' = [] ++ [EvSpawn (Ddcctl "100");
                      EvAlert "ddcctl failed:" (CalledProcessError (Ddcctl "100") 1)].
Proof.
  apply (toggle_xdr_keeps_the_flip idle_app (mac mac_fs (all_exit 1)) (Exited 1));
    [reflexivity | discriminate].
Defined.

(** * Further properties of the menu-bar app *)

(** X1.  [toggle_enabled] never reaches the display, in either direction:
    for every object and world it flips [enabled] and the item's title
    and leaves [current_brightness] as it was and the world untouched -
    no child process, no event.  Switching off does not dim, switching on
    does not restore.  Its last step is the icon: where no image file of
    the icon's name can be opened, the callback ends there with
    [FileNotFoundError] and the icon is what it was. *)
Theorem toggle_enabled_never_reaches_display (s : Menubar.app) (w : world) :
  let out := Menubar.toggle_enabled s w in
  let icon := if Menubar.enabled s then "⭕" else "☀️" in
  out.2 = w /\
  Menubar.enabled out.1.2 = negb (Menubar.enabled s) /\
  Menubar.current_brightness out.1.2 = Menubar.current_brightness s /\
  Menubar.enabled_title out.1.2 =
    (if Menubar.enabled s then "❌ Disabled" else "✅ Enabled") /\
  out.1.1 = (if image_opens w icon then Ok tt else Raise FileNotFoundError) /\
  Menubar.icon out.1.2 = (if image_opens w icon then Some icon else Menubar.icon s).
Proof.
  unfold Menubar.toggle_enabled, Menubar.set_brightness, Menubar.update_icon.
  monad_ops. destruct (Menubar.enabled s) eqn:E; simpl;
    destruct (image_opens w _); simpl; repeat split; auto.
Qed.

(** X2.  While the app is disabled no menu request reaches the display
    or changes [current_brightness]: the slider does nothing at all, and
    a preset starts no process - yet it still posts its notification, as
    if the mode had been set, before it raises at the icon or at the menu
    lookup. *)
Theorem disabled_requests (r : Menubar.request) (s : Menubar.app) (w : world) :
  Menubar.enabled s = false ->
  let out := Menubar.handle r s w in
  Menubar.current_brightness out.1.2 = Menubar.current_brightness s /\
  Menubar.enabled out.1.2 = false /\
  nprocs out.2 = nprocs w /\
  fs out.2 = fs w /\
  match r with
  | Menubar.Slider _ => out = (Ok tt, s, w)
  | _ =>
      trace out.2 = trace w ++ [EvNotify (preset_notice r).1 (preset_notice r).2] /\
      out.1.1 = (if image_opens w (preset_icon r)
                 then Raise (KeyError "🔆 Brightness:") else Raise FileNotFoundError) /\
      Menubar.icon out.1.2 =
        (if image_opens w (preset_icon r) then Some (preset_icon r) else Menubar.icon s)
  end.
Proof.
  intros H.
  destruct r; simpl;
    unfold Menubar.set_outdoor, Menubar.set_bright, Menubar.set_normal, Menubar.set_dim,
      Menubar.slider_changed, Menubar.set_brightness, Menubar.show_notification,
      Menubar.update_icon, Menubar.menu_brightness_set_value;
    monad_ops; rewrite H; simpl;
    try (destruct (image_opens w _)); simpl; repeat split; auto.
Qed.

Lemma disabled_requests_witness :
  let out := Menubar.handle Menubar.Outdoor disabled_app (mac mac_fs (all_exit 0)) in
  Menubar.current_brightness out.1.2 = 1.0%Q /\
  Menubar.enabled out.1.2 = false /\
  nprocs out.2 = 0 /\
  fs out.2 = mac_fs /\
  trace out.2 = [] ++ [EvNotify "Outdoor Mode" "1600 nits - Maximum brightness"] /\
  out.1.1 = Raise FileNotFoundError /\
  Menubar.icon out.1.2 = None.
Proof.
  apply (disabled_requests Menubar.Outdoor disabled_app (mac mac_fs (all_exit 0))).
  reflexivity.
Defined.

(** X4.  A preset chosen while enabled, with the swift process starting,
    never returns normally, and yet has taken effect: the external call
    with the preset's level has been made, the level recorded and the
    notification posted when the callback raises - [FileNotFoundError]
    from the icon where no image file of that name can be opened,
    otherwise [KeyError] from the lookup of a menu entry that is not
    there. *)
Theorem preset_raises_after_applying
    (r : Menubar.request) (s : Menubar.app) (w : world) (rc : Z) :
  is_preset r ->
  Menubar.enabled s = true ->
  procs w (nprocs w) = Exited rc ->
  let out := Menubar.handle r s w in
  trace out.2 = trace w ++ [EvSpawn (Swift (requested_level r));
                            EvNotify (preset_notice r).1 (preset_notice r).2] /\
  Menubar.current_brightness out.1.2 = requested_level r /\
  out.1.1 = (if image_opens w (preset_icon r)
             then Raise (KeyError "🔆 Brightness:") else Raise FileNotFoundError) /\
  Menubar.icon out.1.2 =
    (if image_opens w (preset_icon r) then Some (preset_icon r) else Menubar.icon s).
Proof.
  intros Hr He Hp.
  destruct r; simpl in Hr; try contradiction; simpl;
    unfold Menubar.set_outdoor, Menubar.set_bright, Menubar.set_normal, Menubar.set_dim,
      Menubar.set_brightness, Menubar.show_notification, Menubar.update_icon,
      Menubar.menu_brightness_set_value, popen_communicate, spawn;
    monad_ops; rewrite He; simpl; rewrite Hp; simpl;
    destruct (image_opens w _); simpl; rewrite <- ?app_assoc; repeat split; auto.
Qed.

Lemma preset_raises_after_applying_witness :
  let out := Menubar.handle Menubar.Dim outdoor_app (mac mac_fs (all_exit 0)) in
  trace out.2 = [] ++ [EvSpawn (Swift 0.5); EvNotify "Dim Mode" "250 nits"] /\
  Menubar.current_brightness out.1.2 = 0.5%Q /\
  out.1.1 = Raise FileNotFoundError /\
  Menubar.icon out.1.2 = None.
Proof.
  apply (preset_raises_after_applying Menubar.Dim outdoor_app (mac mac_fs (all_exit 0)) 0%Z);
    [exact I | reflexivity | reflexivity].
Defined.





(** * Further properties of the ddcctl variant *)

(** X6.  Whenever [toggle_xdr] returns - the tool exited, with whatever
    status - the flag is flipped, exactly one ddcctl call was made, for
    the level of the new flag, and the menu is back in step: the XDR
    check mark shows [enabled], the startup check mark shows the disk.
    The disk is not touched. *)
Theorem toggle_xdr_returns (s s' : Ddcctl.app) (w w' : world) :
  Ddcctl.toggle_xdr s w = (Ok tt, s', w') ->
  Ddcctl.enabled s' = negb (Ddcctl.enabled s) /\
  Ddcctl.enable_item_state s' = Ddcctl.enabled s' /\
  Ddcctl.startup_item_state s' = on_disk w' /\
  fs w' = fs w /\
  nprocs w' = S (nprocs w) /\
  exists rest,
    trace w' = trace w ++ EvSpawn (ddcctl_for (Ddcctl.enabled s')) :: rest /\
    swift_levels rest = [] /\
    (rest = [] \/ exists rc, rest = [EvAlert "ddcctl failed:"
                                        (CalledProcessError (ddcctl_for (Ddcctl.enabled s')) rc)]).
Proof.
  unfold Ddcctl.toggle_xdr, Ddcctl.update_menu_state, Ddcctl._launch_agent_installed,
    Ddcctl._run_ddcctl, try_except_CalledProcessError, subprocess_run, spawn, path_exists,
    ddcctl_for.
  monad_ops. simpl.
  destruct (procs w (nprocs w)) as [rc|e]; simpl.
  - destruct (Z.eqb_spec rc 0) as [->|Hrc]; simpl; intros [= <- <-]; simpl;
      repeat split; auto.
    + exists []. auto.
    + eexists. rewrite <- app_assoc. simpl. split; [reflexivity|]. split; [reflexivity|].
      right. eauto.
  - destruct e; simpl; discriminate.
Qed.

Lemma toggle_xdr_returns_witness :
  let out := Ddcctl.toggle_xdr idle_app (mac installed_fs (all_exit 0)) in
  Ddcctl.enabled out.1.2 = true /\
  Ddcctl.enable_item_state out.1.2 = Ddcctl.enabled out.1.2 /\
  Ddcctl.startup_item_state out.1.2 = on_disk out.2 /\
  fs out.2 = installed_fs /\
  nprocs out.2 = 1 /\
  exists rest,
    trace out.2 = [] ++ EvSpawn (ddcctl_for (Ddcctl.enabled out.1.2)) :: rest /\
    swift_levels rest = [] /\
    (rest = [] \/ exists rc, rest = [EvAlert "ddcctl failed:"
                                        (CalledProcessError (ddcctl_for (Ddcctl.enabled out.1.2)) rc)]).
Proof.
  intros out.
  apply (toggle_xdr_returns idle_app out.1.2 (mac installed_fs (all_exit 0)) out.2).
  vm_compute. reflexivity.
Defined.

(** X7.  Toggling XDR on and off again, the tool exiting 0 both times:
    the flag is back where it was, and the display was sent the level of
    the other state first and of the original state last. *)
Theorem toggle_xdr_twice (s : Ddcctl.app) (w : world) :
  procs w (nprocs w) = Exited 0 ->
  procs w (S (nprocs w)) = Exited 0 ->
  exists s' w',
    (Ddcctl.toggle_xdr;; Ddcctl.toggle_xdr) s w = (Ok tt, s', w') /\
    Ddcctl.enabled s' = Ddcctl.enabled s /\
    Ddcctl.enable_item_state s' = Ddcctl.enabled s /\
    trace w' = trace w ++ [EvSpawn (ddcctl_for (negb (Ddcctl.enabled s)));
                           EvSpawn (ddcctl_for (Ddcctl.enabled s))] /\
    fs w' = fs w.
Proof.
  intros H0 H1.
  unfold Ddcctl.toggle_xdr, Ddcctl.update_menu_state, Ddcctl._launch_agent_installed,
    Ddcctl._run_ddcctl, try_except_CalledProcessError, subprocess_run, spawn, path_exists,
    ddcctl_for.
  monad_ops. simpl. rewrite H0. simpl. rewrite H1. simpl.
  eexists _, _. split; [reflexivity|]. simpl.
  rewrite Bool.negb_involutive, <- app_assoc. auto.
Qed.

Lemma toggle_xdr_twice_witness :
  exists s' w',
    (Ddcctl.toggle_xdr;; Ddcctl.toggle_xdr) idle_app (mac mac_fs (all_exit 0)) = (Ok tt, s', w') /\
    Ddcctl.enabled s' = false /\
    Ddcctl.enable_item_state s' = false /\
    trace w' = [] ++ [EvSpawn (ddcctl_for true); EvSpawn (ddcctl_for false)] /\
    fs w' = mac_fs.
Proof.
  apply (toggle_xdr_twice idle_app (mac mac_fs (all_exit 0))); reflexivity.
Defined.

(** X8.  Whenever the startup toggle of the ddcctl variant returns, it
    has toggled: the record is on disk exactly if it was not before, the
    startup check mark shows that, and the XDR flag is as it was. *)
Theorem toggle_startup_toggles (s s' : Ddcctl.app) (w w' : world) :
  Ddcctl.toggle_startup s w = (Ok tt, s', w') ->
  on_disk w' = negb (on_disk w) /\
  Ddcctl.startup_item_state s' = on_disk w' /\
  Ddcctl.enabled s' = Ddcctl.enabled s.
Proof.
  unfold Ddcctl.toggle_startup, Ddcctl.update_menu_state, Ddcctl._launch_agent_installed,
    Ddcctl._install_launch_agent, Ddcctl._remove_launch_agent, Ddcctl._plist_path,
    write_text, unlink, subprocess_run, spawn, path_exists, on_disk.
  monad_ops. simpl.
  destruct (fs w !! plist_path_of w) as [[c|]|] eqn:E; simpl; rewrite ?E; simpl;
    rewrite ?parent_plist_path; unfold_paths;
    on_disk_cases; simpl; rewrite ?E; simpl;
    intros [= <- <-]; simpl; rewrite ?lookup_delete_eq, ?lookup_insert_eq; auto.
Qed.

Lemma toggle_startup_toggles_witness :
  let out := Ddcctl.toggle_startup idle_app (mac installed_fs (all_exit 0)) in
  on_disk out.2 = negb (on_disk (mac installed_fs (all_exit 0))) /\
  Ddcctl.startup_item_state out.1.2 = on_disk out.2 /\
  Ddcctl.enabled out.1.2 = false.
Proof.
  intros out.
  apply (toggle_startup_toggles idle_app out.1.2 (mac installed_fs (all_exit 0)) out.2).
  vm_compute. reflexivity.
Defined.

(** * Further properties of the login agent *)

(** X9.  Whenever the startup toggle of the menu-bar app returns, it has
    toggled: the record is on disk exactly if it was not before, the
    item's title carries the check mark exactly if it is, and the last
    thing that happened is the notification saying which; the brightness
    controller's state is as it was. *)
Theorem menubar_toggle_startup_toggles (s s' : Menubar.app) (w w' : world) :
  Menubar.toggle_startup s w = (Ok tt, s', w') ->
  on_disk w' = negb (on_disk w) /\
  Menubar.startup_title s' =
    (if on_disk w' then "🚀 Launch at Startup ✓" else "🚀 Launch at Startup") /\
  (exists before,
      trace w' = before ++
        [if on_disk w'
         then EvNotify "Startup Enabled" "XDR Brightness will launch at startup"
         else EvNotify "Startup Disabled" "XDR Brightness won't launch at startup"]) /\
  Menubar.enabled s' = Menubar.enabled s /\
  Menubar.current_brightness s' = Menubar.current_brightness s.
Proof.
  unfold Menubar.toggle_startup, Menubar.is_startup_enabled, Menubar.enable_startup,
    Menubar.disable_startup, Menubar.show_notification, mkdir_exist_ok, write_text, unlink,
    subprocess_run, spawn, path_exists, on_disk.
  monad_ops. simpl.
  destruct (fs w !! plist_path_of w) as [[c|]|] eqn:E; simpl; rewrite ?E; simpl;
    rewrite ?parent_plist_path, ?parent_launch_agents_dir; unfold_paths;
    on_disk_cases; simpl; rewrite ?E; simpl;
    intros [= <- <-]; simpl; lookups; rewrite ?lookup_delete_eq; simpl;
    repeat split; eauto.
Qed.

Lemma menubar_toggle_startup_toggles_witness :
  let out := Menubar.toggle_startup outdoor_app (mac fresh_fs (all_exit 0)) in
  on_disk out.2 = negb (on_disk (mac fresh_fs (all_exit 0))) /\
  Menubar.startup_title out.1.2 =
    (if on_disk out.2 then "🚀 Launch at Startup ✓" else "🚀 Launch at Startup") /\
  (exists before,
      trace out.2 = before ++
        [if on_disk out.2
         then EvNotify "Startup Enabled" "XDR Brightness will launch at startup"
         else EvNotify "Startup Disabled" "XDR Brightness won't launch at startup"]) /\
  Menubar.enabled out.1.2 = true /\
  Menubar.current_brightness out.1.2 = 3.2%Q.
Proof.
  intros out.
  apply (menubar_toggle_startup_toggles outdoor_app out.1.2 (mac fresh_fs (all_exit 0)) out.2).
  vm_compute. reflexivity.
Defined.

Lemma install_spawn_failed p (s : app_of p) w e :
  fs w !! launch_agents_dir w = Some Dir ->
  fs w !! plist_path_of w <> Some Dir ->
  procs w (nprocs w) = SpawnFailed e ->
  install p s w =
    (Raise (oserror e), s,
     tick (log (EvSpawn (Launchctl "load" (plist_path_of w)))
       (log (EvWrite (plist_path_of w) (record_text p w))
         (with_fs (<[plist_path_of w := File (record_text p w)]> (fs w)) w)))).
Proof.
  intros Hd Hp Hrc.
  destruct p; simpl;
    unfold Menubar.enable_startup, Ddcctl._install_launch_agent, Ddcctl._plist_path,
      mkdir_exist_ok, write_text, subprocess_run, spawn;
    monad_ops; rewrite parent_plist_path, Hd; simpl; rewrite ?Hd;
    destruct (fs w !! plist_path_of w) as [[c|]|] eqn:E; try congruence;
    simpl; rewrite Hrc; reflexivity.
Qed.

(** X10.  In either program [install], on a disk where the LaunchAgents
    directory exists, writes the record first and whatever launchctl does
    afterwards: a stale record is replaced by the current text, a
    non-zero exit of launchctl is ignored and [install] returns, and when
    launchctl cannot be started [install] raises the [OSError] with the
    record left on disk, so that [isInstalled] then answers true for an
    agent that was never registered. *)
Theorem install_writes_whatever_launchctl_does
    (p : program) (s : app_of p) (w : world) (o : proc_outcome) :
  fs w !! launch_agents_dir w = Some Dir ->
  fs w !! plist_path_of w <> Some Dir ->
  procs w (nprocs w) = o ->
  let out := install p s w in
  out.1.1 = match o with
            | Exited _ => Ok tt
            | SpawnFailed e => Raise (oserror e)
            end /\
  out.1.2 = s /\
  fs out.2 = <[plist_path_of w := File (record_text p w)]> (fs w) /\
  trace out.2 = trace w ++ [EvWrite (plist_path_of w) (record_text p w);
                            EvSpawn (Launchctl "load" (plist_path_of w))] /\
  isInstalled p s out.2 = (Ok true, s, out.2).
Proof.
  intros Hd Hp Ho out. subst out.
  assert (forall w' : world,
             fs w' = <[plist_path_of w := File (record_text p w)]> (fs w) ->
             plist_path_of w' = plist_path_of w ->
             isInstalled p s w' = (Ok true, s, w')) as Hin.
  { intros w' Hf Hpp. rewrite isInstalled_eq.
    erewrite on_disk_true; [reflexivity|]. rewrite Hf, Hpp. apply lookup_insert_eq. }
  destruct o as [rc|e].
  - rewrite (install_ok p s w rc Hd Hp Ho). simpl.
    repeat split; [now rewrite <- app_assoc | now apply Hin].
  - rewrite (install_spawn_failed p s w e Hd Hp Ho). simpl.
    repeat split; [now rewrite <- app_assoc | now apply Hin].
Qed.

Lemma install_writes_whatever_launchctl_does_witness :
  let w := mac installed_fs (fun _ => SpawnFailed ENOENT) in
  let out := install DdcctlApp idle_app w in
  out.1.1 = Raise FileNotFoundError /\
  out.1.2 = idle_app /\
  fs out.2 = <[plist_path_of w := File (record_text DdcctlApp w)]> (fs w) /\
  trace out.2 = [] ++ [EvWrite (plist_path_of w) (record_text DdcctlApp w);
                       EvSpawn (Launchctl "load" (plist_path_of w))] /\
  isInstalled DdcctlApp idle_app out.2 = (Ok true, idle_app, out.2).
Proof.
  intros w.
  apply (install_writes_whatever_launchctl_does DdcctlApp idle_app w (SpawnFailed ENOENT)).
  - vm_compute. reflexivity.
  - vm_compute. discriminate.
  - reflexivity.
Defined.

Lemma remove_spawn_failed p (s : app_of p) w n e :
  fs w !! plist_path_of w = Some n ->
  procs w (nprocs w) = SpawnFailed e ->
  remove p s w =
    (Raise (oserror e), s, tick (log (EvSpawn (Launchctl "unload" (plist_path_of w))) w)).
Proof.
  intros H Hrc.
  destruct p; simpl;
    unfold Menubar.disable_startup, Ddcctl._remove_launch_agent, Ddcctl._plist_path,
      path_exists, subprocess_run, spawn, unlink;
    monad_ops; rewrite H; simpl; rewrite Hrc; reflexivity.
Qed.

(** X11.  In either program [remove], with the record on disk, asks
    launchctl to unload first and deletes second.  The exit status of
    launchctl does not matter: the file is deleted and [remove] returns.
    But when launchctl cannot be started, [remove] raises the [OSError]
    before the deletion and the record stays. *)
Theorem remove_unloads_then_deletes
    (p : program) (s : app_of p) (w : world) (content : string) (o : proc_outcome) :
  fs w !! plist_path_of w = Some (File content) ->
  procs w (nprocs w) = o ->
  let out := remove p s w in
  out.1.2 = s /\
  match o with
  | Exited _ =>
      out.1.1 = Ok tt /\
      fs out.2 = delete (plist_path_of w) (fs w) /\
      trace out.2 = trace w ++ [EvSpawn (Launchctl "unload" (plist_path_of w));
                                EvUnlink (plist_path_of w)] /\
      isInstalled p s out.2 = (Ok false, s, out.2)
  | SpawnFailed e =>
      out.1.1 = Raise (oserror e) /\
      fs out.2 = fs w /\
      trace out.2 = trace w ++ [EvSpawn (Launchctl "unload" (plist_path_of w))] /\
      isInstalled p s out.2 = (Ok true, s, out.2)
  end.
Proof.
  intros Hf Ho out. subst out. destruct o as [rc|e].
  - rewrite (remove_file p s w content rc Hf Ho). simpl.
    repeat split; [now rewrite <- app_assoc|].
    rewrite isInstalled_eq. erewrite on_disk_false; [reflexivity|].
    simpl. apply lookup_delete_eq.
  - rewrite (remove_spawn_failed p s w _ e Hf Ho). simpl.
    repeat split. rewrite isInstalled_eq. erewrite on_disk_true; [reflexivity|].
    simpl. exact Hf.
Qed.

Lemma remove_unloads_then_deletes_witness :
  let w := mac installed_fs (all_exit 3) in
  let out := remove MenubarApp outdoor_app w in
  out.1.2 = outdoor_app /\
  out.1.1 = Ok tt /\
  fs out.2 = delete (plist_path_of w) (fs w) /\
  trace out.2 = [] ++ [EvSpawn (Launchctl "unload" (plist_path_of w));
                       EvUnlink (plist_path_of w)] /\
  isInstalled MenubarApp outdoor_app out.2 = (Ok false, outdoor_app, out.2).
Proof.
  intros w.
  apply (remove_unloads_then_deletes MenubarApp outdoor_app w "<plist/>" (Exited 3)).
  - vm_compute. reflexivity.
  - reflexivity.
Defined.

(** X12.  [install] followed by [remove], in either program, on a disk
    that has the LaunchAgents directory and no record, with launchctl
    starting both times: both return, the disk is exactly as before, and
    what happened is write, load, unload, delete, in this order. *)
Theorem install_then_remove (p : program) (s : app_of p) (w : world) (rc1 rc2 : Z) :
  fs w !! launch_agents_dir w = Some Dir ->
  fs w !! plist_path_of w = None ->
  procs w (nprocs w) = Exited rc1 ->
  procs w (S (nprocs w)) = Exited rc2 ->
  exists w',
    (install p;; remove p) s w = (Ok tt, s, w') /\
    fs w' = fs w /\
    trace w' = trace w ++ [EvWrite (plist_path_of w) (record_text p w);
                           EvSpawn (Launchctl "load" (plist_path_of w));
                           EvSpawn (Launchctl "unload" (plist_path_of w));
                           EvUnlink (plist_path_of w)].
Proof.
  intros Hd Hn H1 H2.
  assert (fs w !! plist_path_of w <> Some Dir) as Hp by (rewrite Hn; discriminate).
  rewrite (bind_ok _ _ _ _ _ _ _ (install_ok p s w rc1 Hd Hp H1)).
  erewrite remove_file; [| simpl; apply lookup_insert_eq | exact H2].
  eexists. split; [reflexivity|]. simpl. split.
  - now apply delete_insert_id.
  - now rewrite <- !app_assoc.
Qed.

Lemma install_then_remove_witness :
  let w := mac mac_fs (all_exit 0) in
  exists w',
    (install DdcctlApp;; remove DdcctlApp) idle_app w = (Ok tt, idle_app, w') /\
    fs w' = fs w /\
    trace w' = [] ++ [EvWrite (plist_path_of w) (record_text DdcctlApp w);
                      EvSpawn (Launchctl "load" (plist_path_of w));
                      EvSpawn (Launchctl "unload" (plist_path_of w));
                      EvUnlink (plist_path_of w)].
Proof.
  intros w.
  apply (install_then_remove DdcctlApp idle_app w 0%Z 0%Z).
  - vm_compute. reflexivity.
  - vm_compute. reflexivity.
  - reflexivity.
  - reflexivity.
Defined.

(** X13.  The login agent operations of either program touch nothing on
    disk but the record and the directory it lives in: whatever the disk
    and launchctl's answers, and whether they return or raise, every
    other path holds after [install] and after [remove] what it held
    before. *)
Theorem agent_operations_frame (p : program) (s : app_of p) (w : world) (q : path) :
  plist_path_of w <> q ->
  launch_agents_dir w <> q ->
  fs (install p s w).2 !! q = fs w !! q /\
  fs (remove p s w).2 !! q = fs w !! q.
Proof.
  intros Hp Hd. split.
  - destruct p; simpl;
      unfold Menubar.enable_startup, Ddcctl._install_launch_agent, Ddcctl._plist_path,
        mkdir_exist_ok, write_text, subprocess_run, spawn;
      monad_ops; rewrite parent_plist_path, ?parent_launch_agents_dir; unfold_paths;
      on_disk_cases; simpl;
      rewrite ?(lookup_insert_ne _ _ _ _ Hp), ?(lookup_insert_ne _ _ _ _ Hd); reflexivity.
  - destruct p; simpl;
      unfold Menubar.disable_startup, Ddcctl._remove_launch_agent, Ddcctl._plist_path,
        path_exists, unlink, subprocess_run, spawn;
      monad_ops; unfold_paths; simpl;
      match goal with |- context [bool_decide (is_Some ?x)] =>
        destruct x as [[c|]|] eqn:E end; simpl;
      try (destruct (procs w (nprocs w)); simpl); rewrite ?E; simpl;
      rewrite ?(lookup_delete_ne _ _ _ Hp); reflexivity.
Qed.

Lemma agent_operations_frame_witness :
  let w := mac installed_fs (all_exit 0) in
  fs (install MenubarApp outdoor_app w).2 !! me = fs w !! me /\
  fs (remove MenubarApp outdoor_app w).2 !! me = fs w !! me.
Proof.
  intros w.
  apply (agent_operations_frame MenubarApp outdoor_app w me); vm_compute; discriminate.
Defined.

(** X14.  In either program and on any disk, with any answer from
    launchctl, [install] leaves behind one of four histories: nothing;
    the directory made and nothing else; the write followed by the
    registration; or the directory made, the write, the registration.
    launchctl is never asked to load a record that was not written just
    before. *)
Theorem install_registers_only_after_write (p : program) (s : app_of p) (w : world) :
  exists new,
    trace (install p s w).2 = trace w ++ new /\
    (new = [] \/
     new = [EvMkdir (launch_agents_dir w)] \/
     new = [EvWrite (plist_path_of w) (record_text p w);
            EvSpawn (Launchctl "load" (plist_path_of w))] \/
     new = [EvMkdir (launch_agents_dir w);
            EvWrite (plist_path_of w) (record_text p w);
            EvSpawn (Launchctl "load" (plist_path_of w))]).
Proof.
  destruct p; simpl.
  - apply enable_startup_trace.
  - destruct (install_launch_agent_trace s w) as [H | H].
    + exists []. rewrite H, app_nil_r. auto.
    + eexists. split; [exact H | auto].
Qed.

(** X15.  [enable_startup] makes the LaunchAgents directory only if its
    own parent is a directory.  When the directory is not there and
    cannot be made, or a file stands in its place, [enable_startup]
    raises out of [mkdir] - [FileExistsError], [NotADirectoryError] or
    [FileNotFoundError] - and has written and registered nothing. *)
Theorem enable_startup_without_directory (s : Menubar.app) (w : world) :
  fs w !! launch_agents_dir w <> Some Dir ->
  (fs w !! launch_agents_dir w = None ->
   fs w !! parent (launch_agents_dir w) <> Some Dir) ->
  Menubar.enable_startup s w =
    (Raise match fs w !! launch_agents_dir w with
           | Some _ => FileExistsError
           | None =>
               match fs w !! parent (launch_agents_dir w) with
               | Some _ => NotADirectoryError
               | None => FileNotFoundError
               end
           end, s, w).
Proof.
  intros Hd Hl.
  unfold Menubar.enable_startup, mkdir_exist_ok. monad_ops. rewrite parent_plist_path.
  destruct (fs w !! launch_agents_dir w) as [[c|]|] eqn:E; simpl; try congruence; auto.
  destruct (fs w !! parent (launch_agents_dir w)) as [[c|]|] eqn:E'; simpl; auto.
  now contradiction Hl.
Qed.

Lemma enable_startup_without_directory_witness :
  Menubar.enable_startup outdoor_app (mac (<[me := Dir]> ∅) (all_exit 0)) =
    (Raise FileNotFoundError, outdoor_app, mac (<[me := Dir]> ∅) (all_exit 0)).
Proof.
  assert (fs (mac (<[me := Dir]> ∅) (all_exit 0))
            !! launch_agents_dir (mac (<[me := Dir]> ∅) (all_exit 0)) <> Some Dir) as Hd
    by (vm_compute; discriminate).
  assert (fs (mac (<[me := Dir]> ∅) (all_exit 0))
            !! launch_agents_dir (mac (<[me := Dir]> ∅) (all_exit 0)) = None ->
          fs (mac (<[me := Dir]> ∅) (all_exit 0))
            !! parent (launch_agents_dir (mac (<[me := Dir]> ∅) (all_exit 0))) <> Some Dir) as Hl
    by (vm_compute; intros; discriminate).
  exact (enable_startup_without_directory outdoor_app (mac (<[me := Dir]> ∅) (all_exit 0))
           Hd Hl).
Defined.

(** X16.  [_install_launch_agent] of the ddcctl variant makes no
    directory: on every disk where LaunchAgents is not a directory it
    raises out of [write_text] and leaves the world as it found it -
    nothing written, launchctl not called. *)
Theorem install_launch_agent_without_directory (s : Ddcctl.app) (w : world) :
  fs w !! launch_agents_dir w <> Some Dir ->
  exists e,
    Ddcctl._install_launch_agent s w = (Raise e, s, w) /\
    (fs w !! plist_path_of w <> Some Dir ->
     e = match fs w !! launch_agents_dir w with
         | Some _ => NotADirectoryError
         | None => FileNotFoundError
         end).
Proof.
  intros Hd.
  unfold Ddcctl._install_launch_agent, Ddcctl._plist_path, write_text. monad_ops.
  rewrite parent_plist_path.
  destruct (fs w !! plist_path_of w) as [[c|]|] eqn:E;
    destruct (fs w !! launch_agents_dir w) as [[c'|]|] eqn:E'; simpl;
    try congruence; eexists; split; try reflexivity; congruence.
Qed.

Lemma install_launch_agent_without_directory_witness :
  exists e,
    Ddcctl._install_launch_agent idle_app (mac fresh_fs (all_exit 0))
      = (Raise e, idle_app, mac fresh_fs (all_exit 0)) /\
    (fs (mac fresh_fs (all_exit 0)) !! plist_path_of (mac fresh_fs (all_exit 0)) <> Some Dir ->
     e = match fs (mac fresh_fs (all_exit 0)) !! launch_agents_dir (mac fresh_fs (all_exit 0)) with
         | Some _ => NotADirectoryError
         | None => FileNotFoundError
         end).
Proof.
  apply (install_launch_agent_without_directory idle_app (mac fresh_fs (all_exit 0))).
  vm_compute. discriminate.
Defined.

(** * Construction *)

Lemma app_support_not_plist (h : path) :
  h ++ ["Library"; "Application Support"; "☀️"]
    <> h ++ ["Library"; "LaunchAgents"; "com.xdr.brightness.plist"].
Proof. intros E. apply app_inv_head in E. discriminate. Qed.

Lemma app_support_not_agents (h : path) :
  h ++ ["Library"; "Application Support"; "☀️"] <> h ++ ["Library"; "LaunchAgents"].
Proof. intros E. apply app_inv_head in E. discriminate. Qed.

Ltac construction_cases :=
  repeat (simpl;
    rewrite ?lookup_insert_eq;
    rewrite ?(lookup_insert_ne _ _ _ _ (app_support_not_plist _));
    rewrite ?(lookup_insert_ne _ _ _ _ (app_support_not_agents _));
    rewrite ?(lookup_insert_ne _ _ _ _ (agent_paths_differ _));
    match goal with
    | H : ?x = _ |- context [match ?x with _ => _ end] => rewrite H
    | |- context [match ?x with _ => _ end] =>
        lazymatch type of x with
        | option node => destruct x as [[?|]|] eqn:?
        | proc_outcome => destruct x eqn:?
        end
    | |- context [bool_decide ?P] => destruct (bool_decide P) eqn:?
    end).

(** X17.  Constructing either app starts no child process and changes
    the disk in one place at most: the constructor of [rumps.App] makes
    the application support directory if it is not there.  Where that
    fails, construction raises with object and world untouched.
    Otherwise the menu-bar app starts enabled, without an icon, taking
    the level to be 1.0 without setting it; the ddcctl variant starts
    with XDR off; and each marks its startup item by whether the record
    is on disk. *)
Theorem construction (sm : Menubar.app) (sd : Ddcctl.app) (w : world) :
  let om := Menubar.init sm w in
  let od := Ddcctl.construct sd w in
  let made := log (EvMkdir (app_support_dir w))
                  (with_fs (<[app_support_dir w := Dir]> (fs w)) w) in
  od.2 = om.2 /\
  match om.1.1 with
  | Ok _ =>
      (om.2 = w \/ om.2 = made) /\
      fs om.2 !! app_support_dir w = Some Dir /\
      om.1.2 = Menubar.mkApp 1.0 true None "✅ Enabled"
                 (if on_disk w then "🚀 Launch at Startup ✓" else "🚀 Launch at Startup") /\
      od.1.1 = Ok tt /\
      od.1.2 = Ddcctl.mkApp false false (on_disk w)
  | Raise e =>
      om.2 = w /\
      om.1.2 = sm /\
      od.1.1 = Raise e /\
      od.1.2 = sd /\
      fs w !! app_support_dir w <> Some Dir
  end.
Proof.
  unfold Menubar.init, Menubar.setup_menu, Menubar.update_menu_state,
    Menubar.is_startup_enabled, Ddcctl.construct, Ddcctl.init, Ddcctl.update_menu_state,
    Ddcctl._launch_agent_installed, Ddcctl._plist_path, rumps_App_init,
    application_support, mkdir_exist_ok, path_exists, on_disk, app_support_dir,
    plist_path_of.
  monad_ops.
  construction_cases; simpl; repeat split; auto; try congruence;
    match goal with
    | H1 : ?a = true, H2 : ?b = false |- _ =>
        exfalso; exact (Bool.diff_true_false (eq_trans (eq_sym H1) H2))
    end.
Qed.

(** X18.  The command line helper [cli_install_launch_agent] prints its
    message only at the very end and only when construction and install
    have both returned: then the record is on disk, launchctl was asked
    to load it right before the message (whatever it exited with), and
    the app constructed has XDR off.  When it raises, nothing has been
    printed. *)
Theorem cli_install_prints_last (s0 : Ddcctl.app) (w : world) :
  let out := Ddcctl.cli_install_launch_agent s0 w in
  exists new,
    trace out.2 = trace w ++ new /\
    match out.1.1 with
    | Ok _ =>
        (new = [EvWrite (plist_path_of w) (Ddcctl.plist w);
                EvSpawn (Launchctl "load" (plist_path_of w));
                EvPrint "LaunchAgent installed. It will run at next login."] \/
         new = [EvMkdir (app_support_dir w);
                EvWrite (plist_path_of w) (Ddcctl.plist w);
                EvSpawn (Launchctl "load" (plist_path_of w));
                EvPrint "LaunchAgent installed. It will run at next login."]) /\
        fs out.2 !! plist_path_of w = Some (File (Ddcctl.plist w)) /\
        Ddcctl.enabled out.1.2 = false
    | Raise _ => printed new = []
    end.
Proof.
  unfold Ddcctl.cli_install_launch_agent, Ddcctl.construct, Ddcctl.init,
    Ddcctl.update_menu_state, Ddcctl._launch_agent_installed, Ddcctl._install_launch_agent,
    Ddcctl._plist_path, rumps_App_init, application_support, mkdir_exist_ok, write_text,
    subprocess_run, spawn, path_exists, print, app_support_dir.
  monad_ops. rewrite ?parent_plist_path. unfold_paths.
  construction_cases; simpl; rewrite <- ?app_assoc; simpl;
    first [ exists []; split; [now rewrite app_nil_r | reflexivity]
          | eexists; split; [reflexivity|]; simpl;
            rewrite ?lookup_insert_eq; auto ].
Qed.

(** * Sessions *)

Lemma swift_levels_app (t1 t2 : list event) :
  swift_levels (t1 ++ t2) = swift_levels t1 ++ swift_levels t2.
Proof. unfold swift_levels. apply omap_app. Qed.

Lemma last_app_default {A} (l1 l2 : list A) (d : A) :
  List.last (l1 ++ l2) d = List.last l2 (List.last l1 d).
Proof.
  revert l1. induction l2 as [|x l2 IH] using rev_ind; intros l1.
  - now rewrite app_nil_r.
  - now rewrite app_assoc, !last_last.
Qed.

(** One menu action, when the process it may start does start: the
    recorded level follows what was sent. *)
Lemma menubar_perform_step (a : menubar_action) s w rc :
  procs w (nprocs w) = Exited rc ->
  let out := menubar_perform a s w in
  procs out.2 = procs w /\
  exists new,
    trace out.2 = trace w ++ new /\
    ((swift_levels new = [] /\
      Menubar.current_brightness out.1.2 = Menubar.current_brightness s) \/
     swift_levels new = [Menubar.current_brightness out.1.2]).
Proof.
  intros Hp.
  destruct a as [[| | | |v]|]; simpl;
    unfold Menubar.set_outdoor, Menubar.set_bright, Menubar.set_normal, Menubar.set_dim,
      Menubar.slider_changed, Menubar.toggle_enabled, Menubar.set_brightness,
      Menubar.show_notification, Menubar.update_icon, Menubar.menu_brightness_set_value,
      popen_communicate, spawn;
    monad_ops;
    destruct (Menubar.enabled s) eqn:E; simpl; rewrite ?E; simpl; rewrite ?Hp; simpl;
    repeat match goal with |- context [Qle_bool ?x ?y] => destruct (Qle_bool x y) end;
    repeat match goal with |- context [image_opens ?x ?y] => destruct (image_opens x y) end;
    simpl; (split; [reflexivity|]); rewrite <- ?app_assoc;
    first [ exists []; split; [now rewrite app_nil_r | now left]
          | eexists; split; [reflexivity | simpl; auto] ].
Qed.

(** X19.  In a world where swift can always be started, after any
    sequence of menu actions of the menu-bar app - presets, slider moves,
    enable toggles, in any order - [current_brightness] is the last level
    that was sent to the display during the sequence, or what it was
    before if none was sent. *)
Theorem current_brightness_is_last_sent
    (acts : list menubar_action) (s : Menubar.app) (w : world) :
  all_start w ->
  let out := session menubar_perform acts s w in
  exists new,
    trace out.2 = trace w ++ new /\
    Menubar.current_brightness out.1 =
      List.last (swift_levels new) (Menubar.current_brightness s).
Proof.
  revert s w. induction acts as [|a acts IH]; intros s w Hall; simpl.
  - exists []. now rewrite app_nil_r.
  - destruct (Hall (nprocs w)) as [rc Hrc].
    destruct (menubar_perform_step a s w rc Hrc) as (Hprocs & new1 & Ht1 & Hl1).
    destruct (IH (menubar_perform a s w).1.2 (menubar_perform a s w).2) as (new2 & Ht2 & Hl2).
    { intros n. rewrite Hprocs. apply Hall. }
    exists (new1 ++ new2). split.
    + rewrite Ht2, Ht1. now rewrite app_assoc.
    + rewrite Hl2, swift_levels_app, last_app_default.
      destruct Hl1 as [[-> ->] | ->]; reflexivity.
Qed.

Lemma current_brightness_is_last_sent_witness :
  let acts := [Request Menubar.Outdoor; ToggleEnabled; Request Menubar.Dim;
               ToggleEnabled; Request (Menubar.Slider 50)] in
  let out := session menubar_perform acts disabled_app (mac mac_fs (all_exit 0)) in
  exists new,
    trace out.2 = [] ++ new /\
    Menubar.current_brightness out.1 = List.last (swift_levels new) 1.0%Q.
Proof.
  apply (current_brightness_is_last_sent _ disabled_app (mac mac_fs (all_exit 0))).
  intros n. exists 0%Z. reflexivity.
Defined.

Lemma ddcctl_perform_step (a : ddcctl_action) s w rc :
  procs w (nprocs w) = Exited rc ->
  menu_in_sync s w ->
  let out := ddcctl_perform a s w in
  procs out.2 = procs w /\ menu_in_sync out.1.2 out.2.
Proof.
  intros Hp [He Hs]. unfold menu_in_sync, on_disk in *.
  destruct a; simpl;
    unfold Ddcctl.toggle_xdr, Ddcctl.toggle_startup, Ddcctl.update_menu_state,
      Ddcctl._launch_agent_installed, Ddcctl._install_launch_agent,
      Ddcctl._remove_launch_agent, Ddcctl._run_ddcctl, Ddcctl._plist_path,
      try_except_CalledProcessError, write_text, unlink, subprocess_run, spawn, path_exists;
    monad_ops; simpl.
  - rewrite Hp. simpl. destruct (Z.eqb_spec rc 0); simpl; auto.
  - destruct (fs w !! plist_path_of w) as [[c|]|] eqn:E; simpl; rewrite ?Hp; simpl;
      rewrite ?E; simpl; rewrite ?parent_plist_path;
      try (destruct (fs w !! launch_agents_dir w) as [[c'|]|] eqn:E'; simpl);
      rewrite ?Hp; simpl; rewrite ?E in *; auto;
      unfold plist_path_of in *; simpl; rewrite ?E, ?lookup_insert_eq, ?lookup_delete_eq;
      auto.
Qed.

(** X20.  In a world where every child process can be started, the check
    marks of the ddcctl variant stay true to the state across any
    sequence of XDR and startup toggles, also across the ones that raise
    on the disk: after each, the XDR mark shows [enabled] and the startup
    mark shows whether the record is on disk.  Construction sets them
    so. *)
Theorem check_marks_stay_in_sync
    (acts : list ddcctl_action) (s0 : Ddcctl.app) (w : world) :
  all_start w ->
  let s := (Ddcctl.init s0 w).1.2 in
  let out := session ddcctl_perform acts s w in
  menu_in_sync s w /\ menu_in_sync out.1 out.2.
Proof.
  intros Hall s. assert (menu_in_sync s w) as Hs by (split; reflexivity).
  split; [exact Hs|]. clearbody s. clear s0.
  revert s w Hall Hs. induction acts as [|a acts IH]; intros s w Hall Hs; simpl.
  - exact Hs.
  - destruct (Hall (nprocs w)) as [rc Hrc].
    destruct (ddcctl_perform_step a s w rc Hrc Hs) as [Hprocs Hs'].
    apply IH; [|exact Hs']. intros n. rewrite Hprocs. apply Hall.
Qed.

Lemma check_marks_stay_in_sync_witness :
  let w := mac fresh_fs (all_exit 1) in
  let s := (Ddcctl.init idle_app w).1.2 in
  let out := session ddcctl_perform [ToggleStartup; ToggleXdr; ToggleXdr] s w in
  menu_in_sync s w /\ menu_in_sync out.1 out.2.
Proof.
  intros w.
  apply (check_marks_stay_in_sync [ToggleStartup; ToggleXdr; ToggleXdr] idle_app w).
  intros n. exists 1%Z. reflexivity.
Defined.
